(** * OrderService (examples/BadOrderService.py): a shallow embedding

    The Python class [OrderService] is embedded as follows.

    - Python values are the inductive [pyval]: [None], [bool], [int]
      (unbounded, as [Z]), [float] (IEEE-754 binary64, as the standard
      library's [spec_float] at precision 53 and maximal exponent 1024) and
      [str] (as [string]).
    - A raised exception is a result [Raise e]; the methods that touch the
      database connection, the cursor, the clock or standard output run in
      the state-and-exception monad [M] over the record [world].
    - An item of the [items] list is a dictionary from keys to values,
      a [gmap string pyval].
    - The database is the list of the rows of its [orders] table, or
      nothing while the table does not exist; a row holds the values as
      SQLite keeps them (its NULL for a NaN, then the conversion of the
      column, which the table definition decides); the clock is the
      sequence of its readings; what is printed, inserted and committed
      is recorded, in order, in a trace.

    Lists, dictionaries and objects with methods of their own are not
    among the values, and a [str] is a string of one-byte characters.
    Faults of the machine are left out: memory is never exhausted, a
    commit is not refused by the database, and standard output takes
    every line; what is said of a call that goes through is said under
    this assumption. *)

From Stdlib Require Import ZArith Lia Bool.
From Stdlib Require Import Floats.SpecFloat.
From stdpp Require Import gmap strings list pretty.

Local Open Scope Z_scope.

(** ** Binary64 arithmetic *)

Module F64.

Definition prec : Z := 53.
Definition emax : Z := 1024.

Definition add : spec_float -> spec_float -> spec_float := SFadd prec emax.
Definition mul : spec_float -> spec_float -> spec_float := SFmul prec emax.
Definition div : spec_float -> spec_float -> spec_float := SFdiv prec emax.
Definition ltb : spec_float -> spec_float -> bool := SFltb.
Definition leb : spec_float -> spec_float -> bool := SFleb.

(** Nearest-even rounding of an integer, the rounding of [float(n)]. *)
Definition of_Z (z : Z) : spec_float := binary_normalize prec emax z 0 false.

Definition is_inf (f : spec_float) : bool :=
  match f with S754_infinity _ => true | _ => false end.
Definition is_zero (f : spec_float) : bool :=
  match f with S754_zero _ => true | _ => false end.

(** [f >= 0]: false on NaN, true on both zeros. *)
Definition nonneg (f : spec_float) : bool := leb (S754_zero false) f.

(** The smallest exponent of the format, -1074. *)
Definition emin : Z := SpecFloat.emin prec emax.

(** The representations that are binary64 numbers: every Python float is
    one of them. *)
Definition valid (f : spec_float) : bool := valid_binary prec emax f.

(** Zero, finite or infinite, with the sign [s]; never NaN. *)
Definition has_sign (s : bool) (f : spec_float) : bool :=
  match f with
  | S754_zero s' | S754_infinity s' | S754_finite s' _ _ => Bool.eqb s s'
  | S754_nan => false
  end.

(** The number that [f] stands for is strictly greater than the integer
    [k]: an exact comparison of [k] with [m * 2 ^ e], false on NaN. *)
Definition gt_int (f : spec_float) (k : Z) : Prop :=
  match f with
  | S754_nan => False
  | S754_infinity s => s = false
  | S754_zero _ => k < 0
  | S754_finite s m e =>
      let v := if s then Z.neg m else Z.pos m in
      if 0 <=? e then k < v * 2 ^ e else k * 2 ^ (- e) < v
  end.

(** The float literals of the source, each the binary64 number nearest
    to the decimal written in the program text. *)
Definition lit_0_9 : spec_float := S754_finite false 8106479329266893 (-53).
Definition lit_0_95 : spec_float := S754_finite false 8556839292003942 (-53).
Definition lit_0_8 : spec_float := S754_finite false 7205759403792794 (-53).
Definition lit_25_99 : spec_float := S754_finite false 7315534644709949 (-48).
Definition lit_9_99 : spec_float := S754_finite false 5623870034678907 (-49).

(** Numbers the properties mention; all are exact in binary64. *)
Definition lit_100 : spec_float := S754_finite false 7036874417766400 (-46).
Definition lit_90 : spec_float := S754_finite false 6333186975989760 (-46).
Definition lit_85_5 : spec_float := S754_finite false 6016527627190272 (-46).
Definition lit_64 : spec_float := S754_finite false 4503599627370496 (-46).
Definition lit_50 : spec_float := S754_finite false 7036874417766400 (-47).

End F64.

(** ** Values and exceptions *)

Inductive pyval : Type :=
| VNone
| VBool (b : bool)
| VInt (z : Z)
| VFloat (f : spec_float)
| VStr (s : string).

Inductive exn : Type :=
| KeyError (key : string)
| TypeError
| OverflowError
| ValueError
| OperationalError.

Inductive result (A : Type) : Type :=
| Ok (a : A)
| Raise (e : exn).
Arguments Ok {A} a.
Arguments Raise {A} e.

Definition rbind {A B} (r : result A) (k : A -> result B) : result B :=
  match r with
  | Ok a => k a
  | Raise e => Raise e
  end.

(** A number as Python's arithmetic sees it: [bool] is a subclass of
    [int], so [True] and [False] take part as 1 and 0. *)
Inductive pynum : Type :=
| NInt (z : Z)
| NFloat (f : spec_float).

Definition as_num (v : pyval) : option pynum :=
  match v with
  | VBool b => Some (NInt (if b then 1 else 0))
  | VInt z => Some (NInt z)
  | VFloat f => Some (NFloat f)
  | VNone | VStr _ => None
  end.

(** [float(z)] for an [int] operand meeting a [float] one: correctly
    rounded, and [OverflowError] when the rounding leaves the finite
    range. *)
Definition int_to_float (z : Z) : result spec_float :=
  let f := F64.of_Z z in
  if F64.is_inf f then Raise OverflowError else Ok f.

Definition num_to_float (n : pynum) : result spec_float :=
  match n with
  | NInt z => int_to_float z
  | NFloat f => Ok f
  end.

(** Binary arithmetic on two numbers: exact on two ints, binary64
    otherwise, after converting the int operand. *)
Definition num_binop (fz : Z -> Z -> Z)
    (ff : spec_float -> spec_float -> spec_float)
    (a b : pynum) : result pyval :=
  match a, b with
  | NInt x, NInt y => Ok (VInt (fz x y))
  | _, _ =>
      rbind (num_to_float a) (fun fa =>
      rbind (num_to_float b) (fun fb =>
      Ok (VFloat (ff fa fb))))
  end.

Fixpoint str_repeat (s : string) (n : nat) : string :=
  match n with
  | O => EmptyString
  | S n' => String.append s (str_repeat s n')
  end.

(** A string times an int: the string repeated, none for a count below
    one; a count that does not fit a signed 64-bit index raises
    [OverflowError].  (Running out of memory on a long result is not
    modelled.) *)
Definition str_times (s : string) (n : Z) : result pyval :=
  if (- 2 ^ 63 <=? n) && (n <? 2 ^ 63)
  then Ok (VStr (str_repeat s (Z.to_nat n)))
  else Raise OverflowError.

(** [a * b] *)
Definition py_mul (a b : pyval) : result pyval :=
  match as_num a, as_num b with
  | Some x, Some y => num_binop Z.mul F64.mul x y
  | Some (NInt n), None =>
      match b with
      | VStr s => str_times s n
      | _ => Raise TypeError
      end
  | None, Some (NInt n) =>
      match a with
      | VStr s => str_times s n
      | _ => Raise TypeError
      end
  | _, _ => Raise TypeError
  end.

(** [a + b] *)
Definition py_add (a b : pyval) : result pyval :=
  match as_num a, as_num b with
  | Some x, Some y => num_binop Z.add F64.add x y
  | None, None =>
      match a, b with
      | VStr s, VStr t => Ok (VStr (String.append s t))
      | _, _ => Raise TypeError
      end
  | _, _ => Raise TypeError
  end.

(** Truth value of a value used as a condition. *)
Definition py_truthy (v : pyval) : bool :=
  match v with
  | VNone => false
  | VBool b => b
  | VInt z => negb (z =? 0)
  | VFloat f => negb (F64.is_zero f)
  | VStr s => negb (String.eqb s EmptyString)
  end.

(** [v == lit] for a string literal [lit]. *)
Definition py_eq_str (v : pyval) (lit : string) : bool :=
  match v with
  | VStr s => String.eqb s lit
  | _ => false
  end.

(** [n > k] for a number [n] and an int literal [k] small enough to be
    exact in binary64 (the only case in the source is 50): an int is
    compared exactly, a float is compared with [float(k)]. *)
Definition num_gt_lit (n : pynum) (k : Z) : bool :=
  match n with
  | NInt z => k <? z
  | NFloat f => F64.ltb (F64.of_Z k) f
  end.

(** [v >= 0], as a caller would test a price or a quantity; false for a
    value that is not a number. *)
Definition py_nonneg (v : pyval) : bool :=
  match as_num v with
  | Some (NInt z) => 0 <=? z
  | Some (NFloat f) => F64.nonneg f
  | None => false
  end.

(** ** Pricing: lines 28-46 of [process_order] *)

Abbreviation item := (gmap string pyval).

(** [item[key]] *)
Definition getitem (it : item) (key : string) : result pyval :=
  match it !! key with
  | Some v => Ok v
  | None => Raise (KeyError key)
  end.

(** One turn of the loop: [total += item['price'] * item['quantity']]. *)
Definition add_item (total : pyval) (it : item) : result pyval :=
  rbind (getitem it "price") (fun p =>
  rbind (getitem it "quantity") (fun q =>
  rbind (py_mul p q) (fun line =>
  py_add total line))).

(** The loop [for item in items], from a running total. *)
Fixpoint sum_from (total : pyval) (items : list item) : result pyval :=
  match items with
  | [] => Ok total
  | it :: rest => rbind (add_item total it) (fun t => sum_from t rest)
  end.

(** Lines 29-31. *)
Definition sum_items (items : list item) : result pyval :=
  sum_from (VInt 0) items.

(** Lines 34-39: the [if]/[elif] chain on [order_type]. *)
Definition apply_type_discount (order_type total : pyval) : result pyval :=
  if py_eq_str order_type "premium" then py_mul total (VFloat F64.lit_0_9)
  else if py_eq_str order_type "regular" then py_mul total (VFloat F64.lit_0_95)
  else if py_eq_str order_type "wholesale" then py_mul total (VFloat F64.lit_0_8)
  else Ok total.

(** Lines 42-46: the guarded [if]/[elif] on [discount_code]. *)
Definition apply_code_discount (discount_code total : pyval) : result pyval :=
  if py_truthy discount_code then
    if py_eq_str discount_code "SAVE10" then py_mul total (VFloat F64.lit_0_9)
    else if py_eq_str discount_code "SAVE20" then py_mul total (VFloat F64.lit_0_8)
    else Ok total
  else Ok total.

(** Lines 28-46: the value of [total] when line 49 is reached. *)
Definition order_total (order_type : pyval) (items : list item)
    (discount_code : pyval) : result pyval :=
  rbind (sum_items items) (fun t0 =>
  rbind (apply_type_discount order_type t0) (fun t1 =>
  apply_code_discount discount_code t1)).

(** ** The service state and its monad *)

(** A reading of [datetime.now()]: microseconds of naive local time. *)
Definition datetime : Type := Z.

(** A row of the [orders] table, with the values as the table keeps
    them and as [SELECT *] gives them back.  The table is created outside
    the program; the statements of the source name the columns
    [customer], [total], [date] and [id]. *)
Record order_row : Type := mk_row {
  row_id : Z;
  row_customer : pyval;
  row_total : pyval;
  row_date : datetime
}.

(** What the service does to the outside, in the order it happens. *)
Inductive event : Type :=
| EvInsert (r : order_row)
| EvCommit
| EvSelect (order_id : pyval)
| EvPrint (line : string).

(** [orders] is the table as the connection [self.db] sees it, [None]
    while the database file has no such table; [cursor_rows] is the
    pending result set of [self.cursor]; [clock] gives the successive
    readings of [datetime.now()], of which [ticks] have been taken. *)
Record world : Type := mk_world {
  orders : option (list order_row);
  cursor_rows : list order_row;
  trace : list event;
  ticks : nat;
  clock : nat -> datetime
}.

Definition M (A : Type) : Type := world -> world * result A.

Definition ret {A} (a : A) : M A := fun w => (w, Ok a).
Definition raise {A} (e : exn) : M A := fun w => (w, Raise e).
Definition lift {A} (r : result A) : M A := fun w => (w, r).

(** An exception stops the rest; what was done before it stays done. *)
Definition bind {A B} (m : M A) (k : A -> M B) : M B :=
  fun w =>
    match m w with
    | (w', Ok a) => k a w'
    | (w', Raise e) => (w', Raise e)
    end.

Notation "'let*' x := m 'in' k" := (bind m (fun x => k))
  (at level 10, x name, m at level 100, k at level 200).
Notation "'run' m 'in' k" := (bind m (fun _ => k))
  (at level 10, m at level 100, k at level 200).

Definition set_orders (rows : list order_row) (w : world) : world :=
  mk_world (Some rows) (cursor_rows w) (trace w) (ticks w) (clock w).
Definition set_cursor (rs : list order_row) (w : world) : world :=
  mk_world (orders w) rs (trace w) (ticks w) (clock w).
Definition emit (ev : event) (w : world) : world :=
  mk_world (orders w) (cursor_rows w) (trace w ++ [ev]) (ticks w) (clock w).
Definition tick (w : world) : world :=
  mk_world (orders w) (cursor_rows w) (trace w) (S (ticks w)) (clock w).

(** [datetime.now()] *)
Definition datetime_now : M datetime :=
  fun w => (tick w, Ok (clock w (ticks w))).

(** The records inserted so far, according to the trace. *)
Definition inserted (w : world) : list order_row :=
  omap (fun ev => match ev with EvInsert r => Some r | _ => None end) (trace w).

(** A value can be bound to a statement parameter unless it is an int
    outside the 64-bit range of an SQLite INTEGER. *)
Definition sqlite_bindable (v : pyval) : bool :=
  match v with
  | VInt z => (- 2 ^ 63 <=? z) && (z <? 2 ^ 63)
  | _ => true
  end.

(** What SQLite makes of a value bound to a parameter: a NaN becomes
    NULL, which reads back as [None], and a bool is the integer 1 or 0. *)
Definition sqlite_stored (v : pyval) : pyval :=
  match v with
  | VFloat S754_nan => VNone
  | VBool b => VInt (if b then 1 else 0)
  | _ => v
  end.

(** The text of an int is refused beyond 4300 digits: [str], an f-string
    field and [json.dumps] raise [ValueError] on a longer one. *)
Definition int_str_limit : Z := 10 ^ 4300.

Definition int_str_ok (v : pyval) : bool :=
  match v with
  | VInt z => Z.abs z <? int_str_limit
  | _ => true
  end.

(** ** Methods that read no state *)

(** Lines 79-84. *)
Definition is_premium_customer (customer_name : pyval) : M bool :=
  match customer_name with
  | VStr s => ret (String.prefix "VIP" s)
  | _ => ret false
  end.

(** Lines 92-95. A weight that is not a number cannot be compared with
    50. *)
Definition calculate_shipping (weight : pyval) : M pyval :=
  match as_num weight with
  | Some n =>
      if num_gt_lit n 50 then ret (VFloat F64.lit_25_99)
      else ret (VFloat F64.lit_9_99)
  | None => raise TypeError
  end.

(** ** Methods over the database, the clock and standard output *)

(** Parts of the language runtime and of the table definition that the
    program relies on and does not contain. *)
Class Runtime : Type := {
  (** [repr] of a finite float. *)
  float_repr : spec_float -> string;
  (** [json.dumps] of a [str]: quoted and escaped. *)
  json_str : string -> string;
  (** [str] of a [datetime]. *)
  str_datetime : datetime -> string;
  (** The [id] the table gives to a row inserted after [rows]. *)
  fresh_id : list order_row -> Z;
  (** Whether the row with this [id] satisfies [id = ?] for the value
      bound to the parameter. *)
  id_matches : pyval -> Z -> bool;
  (** What the column of this name keeps of a value stored in it: the
      conversion of the type the column was declared with. *)
  affinity : string -> pyval -> pyval
}.

Section Service.

Context `{rt : Runtime}.

(** [str(v)], as an f-string field formats it. *)
Definition py_str (v : pyval) : string :=
  match v with
  | VNone => "None"
  | VBool true => "True"
  | VBool false => "False"
  | VInt z => pretty z
  | VFloat S754_nan => "nan"
  | VFloat (S754_infinity false) => "inf"
  | VFloat (S754_infinity true) => "-inf"
  | VFloat f => float_repr f
  | VStr s => s
  end.

(** [json.dumps(v)] for a value that is not a container. *)
Definition json_value (v : pyval) : string :=
  match v with
  | VNone => "null"
  | VBool true => "true"
  | VBool false => "false"
  | VInt z => pretty z
  | VFloat S754_nan => "NaN"
  | VFloat (S754_infinity false) => "Infinity"
  | VFloat (S754_infinity true) => "-Infinity"
  | VFloat f => float_repr f
  | VStr s => json_str s
  end.

Definition dquote : string := String (Ascii.ascii_of_nat 34) EmptyString.
Definition json_key (k : string) : string := dquote +:+ k +:+ dquote +:+ ": ".

(** The text of [json.dumps] on the three-key dictionary of
    [format_order], keys in insertion order. *)
Definition json_order (customer_name : string) (total : pyval)
    (timestamp : string) : string :=
  "{" +:+ json_key "customer" +:+ json_str customer_name +:+ ", "
      +:+ json_key "total" +:+ json_value total +:+ ", "
      +:+ json_key "timestamp" +:+ json_str timestamp +:+ "}".

Definition email_line (email : string) (total : pyval) : string :=
  "Email sent to " +:+ email +:+ " for $" +:+ py_str total.

(** The row that the table keeps of the three values bound to the
    INSERT, under the id [id]. *)
Definition stored_row (id : Z) (customer_name : string) (total : pyval)
    (date : datetime) : order_row :=
  mk_row id (affinity "customer" (VStr customer_name))
    (affinity "total" (sqlite_stored total)) date.

(** [self.cursor.execute('INSERT INTO orders (customer, total, date)
    VALUES (?, ?, ?)', ...)]: the cursor drops its pending rows, the
    statement is prepared (which needs the table), the parameters are
    bound, and the row is appended. *)
Definition execute_insert (customer_name : string) (total : pyval)
    (date : datetime) : M unit :=
  fun w =>
    let w0 := set_cursor [] w in
    match orders w0 with
    | None => (w0, Raise OperationalError)
    | Some rows =>
        if sqlite_bindable total then
          let r := stored_row (fresh_id rows) customer_name total date in
          (emit (EvInsert r) (set_orders (rows ++ [r]) w0), Ok tt)
        else (w0, Raise OverflowError)
    end.

(** [self.db.commit()], taken to succeed. *)
Definition commit : M unit := fun w => (emit EvCommit w, Ok tt).

(** [self.cursor.execute('SELECT * FROM orders WHERE id = ?', ...)] *)
Definition execute_select (order_id : pyval) : M unit :=
  fun w =>
    let w0 := set_cursor [] w in
    match orders w0 with
    | None => (w0, Raise OperationalError)
    | Some rows =>
        if sqlite_bindable order_id then
          (emit (EvSelect order_id)
             (set_cursor (filter (fun r => id_matches order_id (row_id r) = true) rows) w0),
           Ok tt)
        else (w0, Raise OverflowError)
    end.

(** [self.cursor.fetchone()] *)
Definition fetchone : M (option order_row) :=
  fun w =>
    match cursor_rows w with
    | [] => (w, Ok None)
    | r :: rest => (set_cursor rest w, Ok (Some r))
    end.

(** Lines 61-64.  Formatting the line fails on an int with too many
    digits; the line, once formatted, is taken to be printed. *)
Definition send_email (email : string) (total : pyval) : M unit :=
  fun w =>
    if int_str_ok total
    then (emit (EvPrint (email_line email total)) w, Ok tt)
    else (w, Raise ValueError).

(** Lines 66-72.  The dictionary is built first, which reads the clock,
    and [json.dumps] then fails on an int with too many digits. *)
Definition format_order (customer_name : string) (total : pyval) : M string :=
  let* now := datetime_now in
  if int_str_ok total
  then ret (json_order customer_name total (str_datetime now))
  else raise ValueError.

(** Lines 74-77. *)
Definition get_order_by_id (order_id : pyval) : M (option order_row) :=
  run execute_select order_id in
  fetchone.

(** Lines 24-59. *)
Definition process_order (order_type : pyval) (customer_name email : string)
    (items : list item) (discount_code : pyval) : M string :=
  let* total := lift (order_total order_type items discount_code) in
  let* now := datetime_now in
  run execute_insert customer_name total now in
  run commit in
  run send_email email total in
  format_order customer_name total.

End Service.

(** ** The properties' vocabulary *)

(** [v == k] for an int [k] that is exact in binary64. *)
Definition py_eq_int (v : pyval) (k : Z) : bool :=
  match as_num v with
  | Some (NInt z) => z =? k
  | Some (NFloat f) => SFeqb f (F64.of_Z k)
  | None => false
  end.

(** The reduction factor the text attaches to an order type. *)
Definition type_factor (order_type : pyval) : option spec_float :=
  if py_eq_str order_type "premium" then Some F64.lit_0_9
  else if py_eq_str order_type "regular" then Some F64.lit_0_95
  else if py_eq_str order_type "wholesale" then Some F64.lit_0_8
  else None.

(** The reduction factor the text attaches to a discount code. *)
Definition code_factor (discount_code : pyval) : option spec_float :=
  if py_eq_str discount_code "SAVE10" then Some F64.lit_0_9
  else if py_eq_str discount_code "SAVE20" then Some F64.lit_0_8
  else None.

(** Multiplying a total by a factor, when there is one. *)
Definition scale (total : pyval) (factor : option spec_float) : result pyval :=
  match factor with
  | Some k => py_mul total (VFloat k)
  | None => Ok total
  end.

(** The price and the quantity of an item that has both. *)
Definition item_line (it : item) : option (pyval * pyval) :=
  match it !! "price", it !! "quantity" with
  | Some p, Some q => Some (p, q)
  | _, _ => None
  end.

(** [lines] are the (price, quantity) pairs of [items], item by item. *)
Definition lines_of (items : list item) (lines : list (pyval * pyval)) : Prop :=
  Forall2 (fun it l => item_line it = Some l) items lines.

(** Adding one line to a sum: its price times its quantity, in Python's
    arithmetic; a sum that has failed stays failed. *)
Definition raw_step (acc : result pyval) (l : pyval * pyval) : result pyval :=
  match acc with
  | Ok t =>
      match py_mul (fst l) (snd l) with
      | Ok x => py_add t x
      | Raise ex => Raise ex
      end
  | Raise ex => Raise ex
  end.

(** The raw sum of price×quantity, as the text has it: from the int 0,
    each line in turn adds its price times its quantity.  It is written
    without [add_item] and [sum_from], as a fold from the left, to be
    compared with the loop. *)
Definition raw_sum (lines : list (pyval * pyval)) : result pyval :=
  fold_left raw_step lines (Ok (VInt 0)).

(** An item dictionary that lacks one of the two keys. *)
Definition malformed_item (it : item) : Prop :=
  it !! "price" = None \/ it !! "quantity" = None.

(** The number [n] is strictly greater than the integer [k]. *)
Definition num_gt (n : pynum) (k : Z) : Prop :=
  match n with
  | NInt z => k < z
  | NFloat f => F64.gt_int f k
  end.

(** A number that Python can hold: any int, and the floats of binary64. *)
Definition num_valid (n : pynum) : Prop :=
  match n with
  | NInt _ => True
  | NFloat f => F64.valid f = true
  end.

(** The outcome is a value [>= 0], or the [OverflowError] of an int too
    large for a float. *)
Definition nonneg_or_overflow (r : result pyval) : Prop :=
  match r with
  | Ok v => py_nonneg v = true
  | Raise ex => ex = OverflowError
  end.

Definition val_is_inf (v : pyval) : bool :=
  match v with
  | VFloat f => F64.is_inf f
  | _ => false
  end.

Definition val_is_zero (v : pyval) : bool :=
  match as_num v with
  | Some (NInt z) => z =? 0
  | Some (NFloat f) => F64.is_zero f
  | None => false
  end.

(** Price and quantity both present and both [>= 0]. *)
Definition nonneg_item (it : item) : Prop :=
  exists p q, it !! "price" = Some p /\ it !! "quantity" = Some q /\
    py_nonneg p = true /\ py_nonneg q = true.

(** As [nonneg_item], and the pair is not an infinity with a zero. *)
Definition nonneg_item_defined (it : item) : Prop :=
  exists p q, it !! "price" = Some p /\ it !! "quantity" = Some q /\
    py_nonneg p = true /\ py_nonneg q = true /\
    val_is_inf p && val_is_zero q = false /\
    val_is_zero p && val_is_inf q = false.

Section Steps.
Context `{rt : Runtime}.

(** The six steps of [process_order], in their order, from the world [w]
    to the outcome [out]: the raw sum of the items' lines, order-type
    factor, code factor, one row inserted (holding what the table keeps of
    the customer and of the total) and committed, the line printed, the
    text returned. *)
Definition performs_steps (order_type : pyval) (customer_name email : string)
    (items : list item) (discount_code : pyval) (w : world)
    (out : world * result string) : Prop :=
  exists lines s t1 t rows,
    lines_of items lines /\
    raw_sum lines = Ok s /\
    scale s (type_factor order_type) = Ok t1 /\
    scale t1 (code_factor discount_code) = Ok t /\
    orders w = Some rows /\
    let r := stored_row (fresh_id rows) customer_name t (clock w (ticks w)) in
    orders (fst out) = Some (rows ++ [r]) /\
    trace (fst out) =
      trace w ++ [EvInsert r; EvCommit; EvPrint (email_line email t)] /\
    snd out =
      Ok (json_order customer_name t (str_datetime (clock w (S (ticks w))))).

(** The outcome of a call that went through with the total [t], from a
    world whose table holds [rows]. *)
Definition completed (customer_name email : string) (t : pyval)
    (rows : list order_row) (w : world) : world * result string :=
  let r := stored_row (fresh_id rows) customer_name t (clock w (ticks w)) in
  (mk_world (Some (rows ++ [r])) []
     (trace w ++ [EvInsert r; EvCommit; EvPrint (email_line email t)])
     (S (S (ticks w))) (clock w),
   Ok (json_order customer_name t (str_datetime (clock w (S (ticks w)))))).

End Steps.

(** The dictionary [{'price': price, 'quantity': quantity}]. *)
Definition mk_item (price quantity : pyval) : item :=
  {[ "price" := price; "quantity" := quantity ]}.

(** ** A concrete runtime and concrete worlds, for examples *)

Module Demo.

Definition runtime : Runtime := {|
  float_repr := fun f =>
    match f with
    | S754_finite s m e => (if s then "-" else "") +:+ pretty (Z.pos m) +:+ "p" +:+ pretty e
    | S754_zero true => "-0.0"
    | _ => "0.0"
    end;
  json_str := fun s => dquote +:+ s +:+ dquote;
  str_datetime := fun t => pretty t;
  fresh_id := fun rows => Z.of_nat (S (length rows));
  id_matches := fun v i => match v with VInt z => z =? i | _ => false end;
  affinity := fun _ v => v
|}.

(** A service whose database has an empty [orders] table. *)
Definition w0 : world := mk_world (Some []) [] [] 0 (fun n => 1000 + Z.of_nat n).

(** A service whose database has no [orders] table. *)
Definition w_no_table : world := mk_world None [] [] 0 (fun n => Z.of_nat n).

(** [[{'price': 40, 'quantity': 2}, {'price': 20, 'quantity': 1}]] *)
Definition items_100 : list item :=
  [mk_item (VInt 40) (VInt 2); mk_item (VInt 20) (VInt 1)].

(** [[{'price': 12.5, 'quantity': 8}]] *)
Definition items_100_float : list item :=
  [mk_item (VFloat (S754_finite false 7036874417766400 (-49))) (VInt 8)].

(** [[{'quantity': 1}]] *)
Definition items_no_price : list item := [{[ "quantity" := VInt 1 ]}].

(** [[{'price': float('inf'), 'quantity': 0}]] *)
Definition items_inf_zero : list item :=
  [mk_item (VFloat (S754_infinity false)) (VInt 0)].

(** [[{'price': 10 ** 400, 'quantity': 1}]] *)
Definition items_huge : list item := [mk_item (VInt (10 ^ 400)) (VInt 1)].

(** [[{'price': 'ab', 'quantity': 2}]] *)
Definition items_str_price : list item := [mk_item (VStr "ab") (VInt 2)].

(** The call of the examples, on [items] in the world [w]. *)
Definition order_for_ann (order_type : pyval) (items : list item)
    (discount_code : pyval) (w : world) : world * result string :=
  process_order (rt := runtime) order_type "Ann" "ann@example.org" items
    discount_code w.

End Demo.

(** ** The service over its lifetime *)

(** [__init__], lines 20-22: the connection sees the table that the
    database file holds ([None] for a file without an [orders] table,
    which is also what connecting to a missing file gives), and the new
    cursor has no pending rows. *)
Definition init (db : option (list order_row)) (clk : nat -> datetime) : world :=
  mk_world db [] [] 0 clk.

(** A call of one of the methods, with its arguments. *)
Inductive call : Type :=
| CallProcessOrder (order_type : pyval) (customer_name email : string)
    (items : list item) (discount_code : pyval)
| CallSendEmail (email : string) (total : pyval)
| CallFormatOrder (customer_name : string) (total : pyval)
| CallGetOrderById (order_id : pyval)
| CallIsPremiumCustomer (customer_name : pyval)
| CallCalculateShipping (weight : pyval).

Definition is_process_order (c : call) : bool :=
  match c with
  | CallProcessOrder _ _ _ _ _ => true
  | _ => false
  end.

Section Lifetime.
Context `{rt : Runtime}.

(** The world after a call; an exception that the call raises is caught
    by the caller, who goes on with the service. *)
Definition after_call (w : world) (c : call) : world :=
  match c with
  | CallProcessOrder ot name email items dc =>
      fst (process_order ot name email items dc w)
  | CallSendEmail email total => fst (send_email email total w)
  | CallFormatOrder name total => fst (format_order name total w)
  | CallGetOrderById oid => fst (get_order_by_id oid w)
  | CallIsPremiumCustomer v => fst (is_premium_customer v w)
  | CallCalculateShipping v => fst (calculate_shipping v w)
  end.

(** The world after a sequence of calls, first to last. *)
Definition after_calls (w : world) (cs : list call) : world :=
  fold_left after_call cs w.

(** The rows of the table that satisfy [id = ?] for [order_id]. *)
Definition matching (order_id : pyval) (rows : list order_row) : list order_row :=
  filter (fun r => id_matches order_id (row_id r) = true) rows.

End Lifetime.

(** ** Items and their values *)

(** A value that arithmetic accepts: an int, a bool or a float. *)
Definition is_number (v : pyval) : Prop := is_Some (as_num v).

(** Both keys present, with a number under each. *)
Definition numeric_item (it : item) : Prop :=
  exists p q, it !! "price" = Some p /\ it !! "quantity" = Some q /\
    is_number p /\ is_number q.

(** Both keys present, with an int under each. *)
Definition int_item (it : item) : Prop :=
  exists p q, it !! "price" = Some (VInt p) /\ it !! "quantity" = Some (VInt q).

(** Price times quantity of an item of ints. *)
Definition item_product (it : item) : Z :=
  match it !! "price", it !! "quantity" with
  | Some (VInt p), Some (VInt q) => p * q
  | _, _ => 0
  end.

(** Two dictionaries with the same price and the same quantity, whatever
    other keys they hold. *)
Definition same_order_fields (a b : item) : Prop :=
  a !! "price" = b !! "price" /\ a !! "quantity" = b !! "quantity".

(** An int or a float, the two kinds of value the running total takes. *)
Definition int_or_float (v : pyval) : Prop :=
  match v with
  | VInt _ | VFloat _ => True
  | _ => False
  end.

(** An item on which [total += item['price'] * item['quantity']] raises
    [TypeError]: a price or a quantity that is not a number. *)
Definition non_numeric_item (it : item) : Prop :=
  exists p q, it !! "price" = Some p /\ it !! "quantity" = Some q /\
    (~ is_number p \/ ~ is_number q).

(** The total of an order without items. *)
Definition empty_total (order_type discount_code : pyval) : pyval :=
  match type_factor order_type, code_factor discount_code with
  | None, None => VInt 0
  | _, _ => VFloat (S754_zero false)
  end.

(** ** More concrete data, for examples *)

Module Samples.

(** As [Demo.runtime], with the ids of an SQLite rowid column: one more
    than the largest id in the table. *)
Definition rowid_runtime : Runtime := {|
  float_repr := @float_repr Demo.runtime;
  json_str := @json_str Demo.runtime;
  str_datetime := @str_datetime Demo.runtime;
  fresh_id := fun rows => 1 + foldr Z.max 0 (row_id <$> rows);
  id_matches := @id_matches Demo.runtime;
  affinity := @affinity Demo.runtime
|}.

(** A table with two orders. *)
Definition two_rows : list order_row :=
  [mk_row 1 (VStr "Ann") (VInt 100) 10;
   mk_row 2 (VStr "Bob") (VFloat F64.lit_90) 20].

Definition w_two : world := mk_world (Some two_rows) [] [] 0 (fun n => 1000 + Z.of_nat n).

(** [[{'price': 40, 'quantity': 2, 'sku': 'A-1'}, {'price': 20, 'quantity': 1}]] *)
Definition items_100_sku : list item :=
  [<["sku" := VStr "A-1"]> (mk_item (VInt 40) (VInt 2)); mk_item (VInt 20) (VInt 1)].

(** [[{'price': 20, 'quantity': 1}, {'price': 40, 'quantity': 2}]] *)
Definition items_100_swapped : list item :=
  [mk_item (VInt 20) (VInt 1); mk_item (VInt 40) (VInt 2)].

(** [[{'price': 2 ** 62, 'quantity': 2}]] *)
Definition items_2_63 : list item := [mk_item (VInt (2 ^ 62)) (VInt 2)].

(** [[{'price': 40, 'quantity': 2}, {'price': None, 'quantity': 1}, {}]] *)
Definition items_none_price : list item :=
  [mk_item (VInt 40) (VInt 2); mk_item VNone (VInt 1); ∅].

(** Two orders and a lookup between them. *)
Definition some_calls : list call :=
  [CallProcessOrder (VStr "premium") "Ann" "ann@example.org" Demo.items_100 VNone;
   CallGetOrderById (VInt 1);
   CallProcessOrder VNone "Bob" "bob@example.org" Demo.items_no_price VNone;
   CallCalculateShipping (VStr "heavy");
   CallProcessOrder (VStr "regular") "Cy" "cy@example.org" Demo.items_100 (VStr "SAVE10")].

End Samples.

(** ** Facts about binary64 rounding *)

Module F64Facts.

Lemma has_sign_nonneg f : F64.has_sign false f = true -> F64.nonneg f = true.
Proof. destruct f as [[]|[]| |[] m e]; simpl; intros; try discriminate; reflexivity. Qed.

Lemma shr_1_nonneg mrs : 0 <= shr_m mrs -> 0 <= shr_m (shr_1 mrs).
Proof.
  destruct mrs as [m r s]; simpl.
  destruct m as [|[p|p|]|[p|p|]]; simpl; lia.
Qed.

Lemma iter_pos_invariant {A} (P : A -> Prop) (f : A -> A) :
  (forall x, P x -> P (f x)) ->
  forall n x, P x -> P (SpecFloat.iter_pos f n x).
Proof.
  intros Hf n; induction n as [n IH|n IH|]; intros x Hx; simpl; auto.
Qed.

Lemma shr_nonneg mrs e n : 0 <= shr_m mrs -> 0 <= shr_m (fst (shr mrs e n)).
Proof.
  intros Hm; destruct n as [|p|p]; simpl; trivial.
  apply (iter_pos_invariant (fun r => 0 <= shr_m r)); auto using shr_1_nonneg.
Qed.

Lemma shr_record_of_loc_m m l : shr_m (shr_record_of_loc m l) = m.
Proof. destruct l as [|[]]; reflexivity. Qed.

Lemma shr_fexp_nonneg m e l :
  0 <= m -> 0 <= shr_m (fst (shr_fexp F64.prec F64.emax m e l)).
Proof.
  intros Hm; unfold shr_fexp; apply shr_nonneg.
  now rewrite shr_record_of_loc_m.
Qed.

Lemma round_nearest_even_nonneg m l : 0 <= m -> 0 <= round_nearest_even m l.
Proof.
  intros Hm; destruct l as [|[]]; simpl; try lia.
  destruct (Z.even m); lia.
Qed.

Lemma binary_round_aux_sign s m e l :
  0 <= m -> F64.has_sign s (binary_round_aux F64.prec F64.emax s m e l) = true.
Proof.
  intros Hm; unfold binary_round_aux.
  pose proof (shr_fexp_nonneg m e l Hm) as H1.
  destruct (shr_fexp F64.prec F64.emax m e l) as [mrs' e'] eqn:E1; simpl in H1.
  pose proof (shr_fexp_nonneg _ e' loc_Exact
                (round_nearest_even_nonneg _ (loc_of_shr_record mrs') H1)) as H2.
  destruct (shr_fexp F64.prec F64.emax _ e' loc_Exact) as [mrs'' e''] eqn:E2;
    simpl in H2.
  destruct (shr_m mrs'') as [|p|p]; [| |lia].
  - simpl; now destruct s.
  - destruct (e'' <=? F64.emax - F64.prec)%Z; simpl; now destruct s.
Qed.

Lemma binary_round_sign s m e :
  F64.has_sign s (binary_round F64.prec F64.emax s m e) = true.
Proof.
  unfold binary_round.
  destruct (shl_align m e _) as [mz ez].
  apply binary_round_aux_sign; lia.
Qed.

Lemma of_Z_sign z : 0 <= z -> F64.has_sign false (F64.of_Z z) = true.
Proof.
  intros Hz; unfold F64.of_Z, binary_normalize.
  destruct z as [|p|p]; [reflexivity| |lia].
  apply binary_round_sign.
Qed.

Ltac pow2_side :=
  first [ lia
        | apply Z.pow_pos_nonneg; lia
        | apply Z.pow_nonzero; lia
        | apply Z.lt_le_incl, Z.pow_pos_nonneg; lia ].

(** Shifting right by [n] bits divides the mantissa by [2 ^ n]. *)
Lemma shr_1_div2 mrs : 0 <= shr_m mrs -> shr_m (shr_1 mrs) = shr_m mrs / 2.
Proof.
  destruct mrs as [m r s]; simpl.
  destruct m as [|[p|p|]|q]; simpl; intros Hm; try lia; try reflexivity.
  - apply Z.div_unique with 1; lia.
  - apply Z.div_unique with 0; lia.
Qed.

Lemma shr_m_iter n : forall mrs,
  0 <= shr_m mrs ->
  shr_m (SpecFloat.iter_pos shr_1 n mrs) = shr_m mrs / 2 ^ Z.pos n.
Proof.
  induction n as [n IH|n IH|]; intros mrs Hm; simpl SpecFloat.iter_pos.
  - assert (H1 : 0 <= shr_m (shr_1 mrs)) by now apply shr_1_nonneg.
    assert (H2 : 0 <= shr_m (SpecFloat.iter_pos shr_1 n (shr_1 mrs))).
    { apply (iter_pos_invariant (fun r => 0 <= shr_m r)); auto using shr_1_nonneg. }
    rewrite IH, IH, shr_1_div2 by assumption.
    rewrite !Z.div_div by pow2_side.
    f_equal.
    replace (Z.pos n~1) with (1 + Z.pos n + Z.pos n) by lia.
    rewrite !Z.pow_add_r by lia. rewrite Z.pow_1_r. lia.
  - assert (H2 : 0 <= shr_m (SpecFloat.iter_pos shr_1 n mrs)).
    { apply (iter_pos_invariant (fun r => 0 <= shr_m r)); auto using shr_1_nonneg. }
    rewrite IH, IH by assumption.
    rewrite !Z.div_div by pow2_side.
    f_equal.
    replace (Z.pos n~0) with (Z.pos n + Z.pos n) by lia.
    now rewrite Z.pow_add_r by lia.
  - rewrite shr_1_div2 by assumption. now rewrite Z.pow_1_r.
Qed.

Lemma digits2_pos_lower p : 2 ^ (Z.pos (digits2_pos p) - 1) <= Z.pos p.
Proof.
  induction p as [p IH|p IH|]; simpl digits2_pos.
  - rewrite Pos2Z.inj_succ.
    replace (Z.succ (Z.pos (digits2_pos p)) - 1)
      with (Z.succ (Z.pos (digits2_pos p) - 1)) by lia.
    rewrite Z.pow_succ_r by lia. lia.
  - rewrite Pos2Z.inj_succ.
    replace (Z.succ (Z.pos (digits2_pos p)) - 1)
      with (Z.succ (Z.pos (digits2_pos p) - 1)) by lia.
    rewrite Z.pow_succ_r by lia. lia.
  - simpl. lia.
Qed.

(** Above the smallest exponent, rounding a positive mantissa to the
    format leaves a positive mantissa. *)
Lemma shr_fexp_pos m e l :
  0 < m -> F64.emin <= e ->
  0 < shr_m (fst (shr_fexp F64.prec F64.emax m e l)) /\
  F64.emin <= snd (shr_fexp F64.prec F64.emax m e l).
Proof.
  intros Hm He. unfold shr_fexp, shr.
  destruct m as [|p|p]; try lia. simpl Zdigits2.
  set (d := Z.pos (digits2_pos p)).
  assert (Hd : 2 ^ (d - 1) <= Z.pos p) by apply digits2_pos_lower.
  assert (Hfe : fexp F64.prec F64.emax (d + e) - e <= d - 1).
  { unfold fexp, F64.emin, SpecFloat.emin, F64.prec, F64.emax in *. lia. }
  destruct (fexp F64.prec F64.emax (d + e) - e) as [|n|n] eqn:En; simpl.
  - rewrite shr_record_of_loc_m. lia.
  - rewrite shr_m_iter by (rewrite shr_record_of_loc_m; lia).
    rewrite shr_record_of_loc_m. split; [|lia].
    apply Z.div_str_pos. split; [apply Z.pow_pos_nonneg; lia|].
    apply Z.le_trans with (2 ^ (d - 1)); [|assumption].
    apply Z.pow_le_mono_r; lia.
  - rewrite shr_record_of_loc_m. lia.
Qed.

Lemma round_nearest_even_pos m l : 0 < m -> 0 < round_nearest_even m l.
Proof.
  intros Hm; destruct l as [|[]]; simpl; try lia.
  destruct (Z.even m); lia.
Qed.

Lemma binary_round_aux_not_zero s m e l :
  0 < m -> F64.emin <= e ->
  F64.is_zero (binary_round_aux F64.prec F64.emax s m e l) = false.
Proof.
  intros Hm He; unfold binary_round_aux.
  destruct (shr_fexp_pos m e l Hm He) as [H1 H1e].
  destruct (shr_fexp F64.prec F64.emax m e l) as [mrs' e'] eqn:E1;
    simpl in H1, H1e.
  destruct (shr_fexp_pos _ e' loc_Exact
              (round_nearest_even_pos _ (loc_of_shr_record mrs') H1) H1e)
    as [H2 _].
  destruct (shr_fexp F64.prec F64.emax _ e' loc_Exact) as [mrs'' e''] eqn:E2;
    simpl in H2.
  destruct (shr_m mrs'') as [|p|p]; try lia.
  now destruct (e'' <=? F64.emax - F64.prec)%Z.
Qed.

Lemma binary_round_not_zero s m e :
  F64.emin <= e -> F64.is_zero (binary_round F64.prec F64.emax s m e) = false.
Proof.
  intros He; unfold binary_round, shl_align.
  set (e' := fexp F64.prec F64.emax (Z.pos (digits2_pos m) + e)).
  assert (He' : F64.emin <= e').
  { unfold e', fexp, F64.emin, SpecFloat.emin, F64.prec, F64.emax. lia. }
  destruct (e' - e) as [|n|n]; apply binary_round_aux_not_zero; lia.
Qed.

(** [float(z)] of a positive int is not a zero. *)
Lemma of_Z_pos_not_zero z : 0 < z -> F64.is_zero (F64.of_Z z) = false.
Proof.
  intros Hz; destruct z as [|p|p]; try lia.
  unfold F64.of_Z, binary_normalize. apply binary_round_not_zero.
  unfold F64.emin, SpecFloat.emin, F64.prec, F64.emax. lia.
Qed.

(** Products and sums of floats that are [>= 0]. *)
Lemma mul_nonneg a b :
  F64.nonneg a = true -> F64.nonneg b = true ->
  F64.is_inf a && F64.is_zero b = false ->
  F64.is_zero a && F64.is_inf b = false ->
  F64.nonneg (F64.mul a b) = true.
Proof.
  destruct a as [[]|[]| |[] ma ea], b as [[]|[]| |[] mb eb]; simpl;
    intros; try discriminate; try reflexivity.
  apply has_sign_nonneg, (binary_round_aux_sign false); lia.
Qed.

Lemma add_nonneg a b :
  F64.nonneg a = true -> F64.nonneg b = true ->
  F64.nonneg (F64.add a b) = true.
Proof.
  destruct a as [[]|[]| |[] ma ea], b as [[]|[]| |[] mb eb]; simpl;
    intros; try discriminate; try reflexivity.
  apply has_sign_nonneg, binary_round_sign.
Qed.

(** Comparing with 50: the binary64 comparison is the exact one. *)
Lemma digits2_pos_upper p : Z.pos p < 2 ^ Z.pos (digits2_pos p).
Proof.
  induction p as [p IH|p IH|]; simpl digits2_pos.
  - rewrite Pos2Z.inj_succ, Z.pow_succ_r by lia. lia.
  - rewrite Pos2Z.inj_succ, Z.pow_succ_r by lia. lia.
  - simpl. lia.
Qed.

Lemma valid_finite s m e :
  F64.valid (S754_finite s m e) = true ->
  Z.pos m < 2 ^ 53 /\ (-1074 < e -> 2 ^ 52 <= Z.pos m).
Proof.
  unfold F64.valid, valid_binary, bounded, canonical_mantissa, fexp,
    SpecFloat.emin, F64.prec, F64.emax.
  intros H. apply andb_true_iff in H as [Hc _]. apply Z.eqb_eq in Hc.
  pose proof (digits2_pos_lower m) as Hlo.
  pose proof (digits2_pos_upper m) as Hup.
  set (d := Z.pos (digits2_pos m)) in *.
  assert (Hd : d <= 53) by lia.
  split.
  - apply Z.lt_le_trans with (2 ^ d); [assumption|].
    apply Z.pow_le_mono_r; lia.
  - intros He. assert (d = 53) as -> by lia. exact Hlo.
Qed.

Lemma ltb_50_exact f :
  F64.valid f = true ->
  F64.ltb (F64.of_Z 50) f = true <-> F64.gt_int f 50.
Proof.
  intros Hv. change (F64.of_Z 50) with F64.lit_50.
  unfold F64.ltb, SFltb, SFcompare, F64.lit_50, F64.gt_int.
  destruct f as [s|[]| |[] m e].
  - split; [discriminate|lia].
  - split; [discriminate|discriminate].
  - split; reflexivity.
  - split; [discriminate|intros []].
  - split; [discriminate|]. cbv zeta.
    destruct (Z.leb_spec 0 e); intros Hc.
    + assert (0 < 2 ^ e) by (apply Z.pow_pos_nonneg; lia). nia.
    + assert (0 < 2 ^ (- e)) by (apply Z.pow_pos_nonneg; lia). nia.
  - destruct (valid_finite _ _ _ Hv) as [Hup Hlo]. cbv zeta.
    assert (P52 : 2 ^ 52 = 4503599627370496) by reflexivity.
    assert (P53 : 2 ^ 53 = 9007199254740992) by reflexivity.
    rewrite P52 in Hlo. rewrite P53 in Hup.
    destruct (Z.compare_spec (-47) e) as [<-|Hlt|Hgt].
    + change (0 <=? -47) with false. cbv iota.
      change (2 ^ (- -47)) with 140737488355328.
      rewrite Pos.compare_cont_spec. unfold Pos.switch_Eq.
      clear Hv Hup Hlo P52 P53.
      change (7036874417766400 ?= m)%positive
        with (Z.pos 7036874417766400 ?= Z.pos m).
      destruct (Z.compare_spec (Z.pos 7036874417766400) (Z.pos m)) as [Heq|H|H].
      * split; [discriminate|]. intros Hc. lia.
      * split; [intros _; lia | reflexivity].
      * split; [discriminate|]. intros Hc. lia.
    + split; [intros _|reflexivity].
      specialize (Hlo ltac:(lia)).
      destruct (Z.leb_spec 0 e).
      * assert (0 < 2 ^ e) by (apply Z.pow_pos_nonneg; lia). nia.
      * assert (2 ^ (- e) <= 2 ^ 46) by (apply Z.pow_le_mono_r; lia).
        assert (P46 : 2 ^ 46 = 70368744177664) by reflexivity. lia.
    + split; [discriminate|].
      destruct (Z.leb_spec 0 e); [lia|].
      assert (2 ^ 48 <= 2 ^ (- e)) by (apply Z.pow_le_mono_r; lia).
      assert (P48 : 2 ^ 48 = 281474976710656) by reflexivity. lia.
Qed.

End F64Facts.

(** ** Values of the literals *)

(** Each float literal is the correctly rounded quotient of two integers
    that binary64 holds exactly, hence the binary64 number nearest to the
    decimal; the other constants are exact. *)
Lemma literal_values :
  F64.lit_0_9 = F64.div (F64.of_Z 9) (F64.of_Z 10) /\
  F64.lit_0_95 = F64.div (F64.of_Z 95) (F64.of_Z 100) /\
  F64.lit_0_8 = F64.div (F64.of_Z 8) (F64.of_Z 10) /\
  F64.lit_25_99 = F64.div (F64.of_Z 2599) (F64.of_Z 100) /\
  F64.lit_9_99 = F64.div (F64.of_Z 999) (F64.of_Z 100) /\
  F64.lit_100 = F64.of_Z 100 /\
  F64.lit_90 = F64.of_Z 90 /\
  F64.lit_64 = F64.of_Z 64 /\
  F64.lit_50 = F64.of_Z 50 /\
  F64.mul F64.lit_85_5 (F64.of_Z 2) = F64.of_Z 171.
Proof. repeat split; vm_compute; reflexivity. Qed.

(** ** Comparisons *)

Lemma py_eq_str_true v lit : py_eq_str v lit = true <-> v = VStr lit.
Proof.
  destruct v; simpl; split; intros E; try discriminate.
  - apply String.eqb_eq in E. now subst.
  - injection E as ->. apply String.eqb_refl.
Qed.

Lemma py_eq_str_false v lit : v <> VStr lit -> py_eq_str v lit = false.
Proof.
  intros Hne. destruct (py_eq_str v lit) eqn:E; [|reflexivity].
  apply py_eq_str_true in E. contradiction.
Qed.

Lemma SFeqb_finite f s m e :
  SFeqb f (S754_finite s m e) = true -> f = S754_finite s m e.
Proof.
  unfold SFeqb, SFcompare.
  destruct f as [[]|[]| |s' m' e']; try (destruct s; discriminate).
  destruct s', s; try discriminate;
    destruct (e' ?= e) eqn:Ee; try discriminate;
    apply Z.compare_eq in Ee; subst e';
    destruct (Pos.compare_cont Eq m' m) eqn:Em; try discriminate;
    apply Pos.compare_eq in Em; subst m'; reflexivity.
Qed.

Lemma py_eq_int_100 v :
  py_eq_int v 100 = true -> v = VInt 100 \/ v = VFloat F64.lit_100.
Proof.
  destruct v as [|[]|z|f|s]; simpl; try discriminate.
  - intros E. apply Z.eqb_eq in E. left. now subst.
  - intros E. right. f_equal.
    change (F64.of_Z 100) with F64.lit_100 in E.
    now apply SFeqb_finite in E.
Qed.

Lemma append_cons a p rest :
  (String a p +:+ rest)%string = String a (p +:+ rest).
Proof. reflexivity. Qed.

Lemma prefix_app p : forall s,
  String.prefix p s = true <-> exists rest, s = (p +:+ rest)%string.
Proof.
  induction p as [|a p IH]; intros s.
  - split; [intros _; now exists s | intros _; now destruct s].
  - destruct s as [|b s]; simpl.
    + split; [discriminate | intros [rest E]; discriminate].
    + destruct (Ascii.ascii_dec a b) as [->|Hne].
      * rewrite IH. split; intros [rest E]; exists rest;
          rewrite append_cons in *; congruence.
      * split; [discriminate|].
        intros [rest E]. rewrite append_cons in E. congruence.
Qed.

(** ** The discount branches and the factors of the text *)

Lemma apply_type_discount_scale order_type total :
  apply_type_discount order_type total = scale total (type_factor order_type).
Proof.
  unfold apply_type_discount, type_factor.
  repeat (match goal with |- context [py_eq_str ?v ?l] => destruct (py_eq_str v l) end;
          try reflexivity).
Qed.

Lemma truthy_of_eq_str v lit :
  lit <> EmptyString -> py_eq_str v lit = true -> py_truthy v = true.
Proof.
  intros Hlit E. apply py_eq_str_true in E. subst v. simpl.
  destruct (String.eqb lit "") eqn:E0; [|reflexivity].
  apply String.eqb_eq in E0. contradiction.
Qed.

Lemma apply_code_discount_scale discount_code total :
  apply_code_discount discount_code total = scale total (code_factor discount_code).
Proof.
  unfold apply_code_discount, code_factor.
  destruct (py_eq_str discount_code "SAVE10") eqn:E10.
  { now rewrite (truthy_of_eq_str _ "SAVE10"). }
  destruct (py_eq_str discount_code "SAVE20") eqn:E20.
  { now rewrite (truthy_of_eq_str _ "SAVE20"). }
  now destruct (py_truthy discount_code).
Qed.

Lemma order_total_steps order_type items discount_code :
  order_total order_type items discount_code =
  rbind (sum_items items) (fun s =>
  rbind (scale s (type_factor order_type)) (fun t1 =>
  scale t1 (code_factor discount_code))).
Proof.
  unfold order_total. destruct (sum_items items) as [s|ex]; simpl; [|reflexivity].
  rewrite apply_type_discount_scale.
  destruct (scale s (type_factor order_type)); simpl; [|reflexivity].
  apply apply_code_discount_scale.
Qed.

(** ** The loop and the raw sum *)

Lemma item_line_lookups it p q :
  item_line it = Some (p, q) <-> it !! "price" = Some p /\ it !! "quantity" = Some q.
Proof.
  unfold item_line.
  destruct (it !! "price") as [p'|], (it !! "quantity") as [q'|];
    split; try discriminate; try (intros [? ?]; discriminate).
  - intros [= <- <-]. auto.
  - intros [[= <-] [= <-]]. reflexivity.
Qed.

Lemma add_item_line total it p q :
  item_line it = Some (p, q) ->
  add_item total it = rbind (py_mul p q) (fun x => py_add total x).
Proof.
  intros H. apply item_line_lookups in H as [Hp Hq].
  unfold add_item, getitem. now rewrite Hp, Hq.
Qed.

Lemma raw_step_raise (lines : list (pyval * pyval)) ex :
  fold_left raw_step lines (Raise ex) = Raise ex.
Proof.
  induction lines as [|l lines IH]; simpl; auto.
Qed.

Lemma sum_from_lines items lines :
  lines_of items lines ->
  forall total,
    sum_from total items = fold_left raw_step lines (Ok total).
Proof.
  induction 1 as [|it [p q] items lines Hit _ IH]; intros total; simpl.
  - reflexivity.
  - rewrite (add_item_line total it p q Hit).
    destruct (py_mul p q) as [x|ex]; simpl.
    + destruct (py_add total x) as [t'|ex]; simpl.
      * apply IH.
      * now rewrite raw_step_raise.
    + now rewrite raw_step_raise.
Qed.

Lemma sum_items_raw items lines :
  lines_of items lines -> sum_items items = raw_sum lines.
Proof.
  intros H. unfold sum_items, raw_sum. now apply sum_from_lines.
Qed.

Lemma sum_from_has_lines items :
  forall total s, sum_from total items = Ok s -> exists lines, lines_of items lines.
Proof.
  induction items as [|it items IH]; intros total s Hs.
  - exists []. constructor.
  - simpl in Hs. destruct (add_item total it) as [t'|] eqn:Hadd; [|discriminate].
    simpl in Hs. destruct (IH _ _ Hs) as (lines & Hl).
    unfold add_item, getitem in Hadd.
    destruct (it !! "price") as [p|] eqn:Hp; [|discriminate].
    destruct (it !! "quantity") as [q|] eqn:Hq; [|discriminate].
    exists ((p, q) :: lines). constructor; [|exact Hl].
    apply item_line_lookups. auto.
Qed.

Lemma add_item_int acc it :
  int_item it -> add_item (VInt acc) it = Ok (VInt (acc + item_product it)).
Proof.
  intros (p & q & Hp & Hq). unfold add_item, getitem, item_product.
  rewrite Hp, Hq. reflexivity.
Qed.

Lemma sum_from_int_items items :
  Forall int_item items ->
  forall acc,
    sum_from (VInt acc) items =
    Ok (VInt (acc + foldr Z.add 0 (map item_product items))).
Proof.
  induction 1 as [|it rest Hit _ IH]; intros acc; simpl.
  - now rewrite Z.add_0_r.
  - rewrite (add_item_int acc it Hit). simpl. rewrite IH. do 2 f_equal. lia.
Qed.

(** ** Running [process_order] *)

(** A value that the INSERT could bind has a text: an int of 64 bits has
    fewer than 4300 digits. *)
Lemma int_str_limit_large : 2 ^ 63 < int_str_limit.
Proof. vm_compute. reflexivity. Qed.

Lemma bindable_has_text t : sqlite_bindable t = true -> int_str_ok t = true.
Proof.
  destruct t as [| |z| |]; try reflexivity.
  unfold sqlite_bindable, int_str_ok. intros H.
  apply andb_true_iff in H as [Hlo Hhi].
  apply Z.leb_le in Hlo. apply Z.ltb_lt in Hhi. apply Z.ltb_lt.
  apply Z.le_lt_trans with (2 ^ 63); [lia | exact int_str_limit_large].
Qed.

Section Properties.
Context `{rt : Runtime}.

(** Nothing before the [INSERT] touches the world: when the pricing
    raises, the exception leaves with the world as it was. *)
Lemma process_order_raises order_type customer_name email items discount_code w ex :
  order_total order_type items discount_code = Raise ex ->
  process_order order_type customer_name email items discount_code w = (w, Raise ex).
Proof. intros E. unfold process_order, bind, lift. now rewrite E. Qed.

(** The call goes through when the pricing returns a total, the table
    exists and the total can be bound. *)
Lemma process_order_completes order_type customer_name email items discount_code w t rows :
  order_total order_type items discount_code = Ok t ->
  orders w = Some rows ->
  sqlite_bindable t = true ->
  process_order order_type customer_name email items discount_code w =
  completed customer_name email t rows w.
Proof.
  intros Et Er Eb. pose proof (bindable_has_text t Eb) as Es.
  unfold process_order, bind, lift, datetime_now, execute_insert. rewrite Et.
  simpl. rewrite Er, Eb.
  unfold commit, send_email, format_order, bind, datetime_now, ret, completed.
  rewrite Es.
  unfold emit, set_orders, set_cursor, tick. simpl.
  rewrite <- !List.app_assoc. reflexivity.
Qed.

(** Conversely, a call that returns went that way. *)
Lemma process_order_returns order_type customer_name email items discount_code w w' s :
  process_order order_type customer_name email items discount_code w = (w', Ok s) ->
  exists t rows,
    order_total order_type items discount_code = Ok t /\
    orders w = Some rows /\
    sqlite_bindable t = true /\
    (w', Ok s) = completed customer_name email t rows w.
Proof.
  intros E.
  destruct (order_total order_type items discount_code) as [t|ex] eqn:Et.
  2: { rewrite (process_order_raises _ _ _ _ _ _ ex Et) in E. discriminate. }
  destruct (orders w) as [rows|] eqn:Er.
  - destruct (sqlite_bindable t) eqn:Eb.
    + rewrite (process_order_completes _ _ _ _ _ _ t rows Et Er Eb) in E.
      exists t, rows. auto.
    + unfold process_order, bind, lift, datetime_now, execute_insert in E.
      rewrite Et in E. simpl in E. rewrite Er, Eb in E. discriminate.
  - unfold process_order, bind, lift, datetime_now, execute_insert in E.
    rewrite Et in E. simpl in E. rewrite Er in E. discriminate.
Qed.

(** A call that raises has inserted nothing. *)
Lemma process_order_raise_keeps_rows order_type customer_name email items discount_code w w' ex :
  process_order order_type customer_name email items discount_code w = (w', Raise ex) ->
  orders w' = orders w /\ trace w' = trace w.
Proof.
  intros E.
  destruct (order_total order_type items discount_code) as [t|ex'] eqn:Et.
  2: { rewrite (process_order_raises _ _ _ _ _ _ ex' Et) in E.
       injection E as <- _. auto. }
  destruct (orders w) as [rows|] eqn:Er.
  - destruct (sqlite_bindable t) eqn:Eb.
    + rewrite (process_order_completes _ _ _ _ _ _ t rows Et Er Eb) in E.
      discriminate.
    + unfold process_order, bind, lift, datetime_now, execute_insert in E.
      rewrite Et in E. simpl in E. rewrite Er, Eb in E.
      injection E as <- _. simpl. auto.
  - unfold process_order, bind, lift, datetime_now, execute_insert in E.
    rewrite Et in E. simpl in E. rewrite Er in E.
    injection E as <- _. simpl. auto.
Qed.

(** ** The discount examples *)

(** C1. When the items sum to 100, [process_order] computes 90 for a
    'premium' order without a code, 85.5 for a 'regular' order with
    'SAVE10' and 64 for a 'wholesale' order with 'SAVE20'; in a service
    whose database has the table, that is the total it inserts, prints
    and returns. *)
Theorem C1_discount_examples (items : list item) (s : pyval) :
  sum_items items = Ok s ->
  py_eq_int s 100 = true ->
  (order_total (VStr "premium") items VNone = Ok (VFloat F64.lit_90) /\
   order_total (VStr "regular") items (VStr "SAVE10") = Ok (VFloat F64.lit_85_5) /\
   order_total (VStr "wholesale") items (VStr "SAVE20") = Ok (VFloat F64.lit_64)) /\
  (forall customer_name email w rows,
     orders w = Some rows ->
     process_order (VStr "premium") customer_name email items VNone w =
       completed customer_name email (VFloat F64.lit_90) rows w /\
     process_order (VStr "regular") customer_name email items (VStr "SAVE10") w =
       completed customer_name email (VFloat F64.lit_85_5) rows w /\
     process_order (VStr "wholesale") customer_name email items (VStr "SAVE20") w =
       completed customer_name email (VFloat F64.lit_64) rows w).
Proof.
  intros Hsum H100.
  assert (Htot :
    order_total (VStr "premium") items VNone = Ok (VFloat F64.lit_90) /\
    order_total (VStr "regular") items (VStr "SAVE10") = Ok (VFloat F64.lit_85_5) /\
    order_total (VStr "wholesale") items (VStr "SAVE20") = Ok (VFloat F64.lit_64)).
  { unfold order_total. rewrite Hsum.
    destruct (py_eq_int_100 s H100) as [-> | ->];
      repeat split; vm_compute; reflexivity. }
  split; [exact Htot|].
  destruct Htot as (H1 & H2 & H3).
  intros customer_name email w rows Hrows.
  repeat split; apply process_order_completes; auto.
Qed.

(** ** Shipping *)

(** C3. [calculate_shipping(51)] is 25.99 and [calculate_shipping(50)] is
    9.99; for every weight that is a number, the result is 25.99 when the
    weight is strictly greater than 50 and 9.99 otherwise. *)
Theorem C3_calculate_shipping (w : world) :
  calculate_shipping (VInt 51) w = (w, Ok (VFloat F64.lit_25_99)) /\
  calculate_shipping (VInt 50) w = (w, Ok (VFloat F64.lit_9_99)) /\
  forall weight n,
    as_num weight = Some n ->
    num_valid n ->
    (num_gt n 50 -> calculate_shipping weight w = (w, Ok (VFloat F64.lit_25_99))) /\
    (~ num_gt n 50 -> calculate_shipping weight w = (w, Ok (VFloat F64.lit_9_99))).
Proof.
  split; [reflexivity|]. split; [reflexivity|].
  intros weight n Hn Hvalid. unfold calculate_shipping. rewrite Hn.
  destruct n as [z|f]; unfold num_gt, num_gt_lit.
  - destruct (Z.ltb_spec 50 z); split; intros; try reflexivity; lia.
  - pose proof (F64Facts.ltb_50_exact f Hvalid) as Hex.
    destruct (F64.ltb (F64.of_Z 50) f); split; intros Hc; try reflexivity.
    + destruct Hc. now apply Hex.
    + apply Hex in Hc. discriminate.
Qed.

(** ** Premium customers *)

(** C4. [is_premium_customer("VIP123")] is true and
    [is_premium_customer("Bob")] is false; for every string the result is
    true exactly when the string starts with 'VIP'. *)
Theorem C4_is_premium_customer (w : world) :
  is_premium_customer (VStr "VIP123") w = (w, Ok true) /\
  is_premium_customer (VStr "Bob") w = (w, Ok false) /\
  forall s, exists b,
    is_premium_customer (VStr s) w = (w, Ok b) /\
    (b = true <-> exists rest, s = ("VIP" +:+ rest)%string).
Proof.
  split; [reflexivity|]. split; [reflexivity|].
  intros s. exists (String.prefix "VIP" s). split; [reflexivity|].
  apply prefix_app.
Qed.

(** C10. On an argument that is not a string [is_premium_customer]
    returns false and raises nothing. *)
Theorem C10_is_premium_customer_total (v : pyval) (w : world) :
  (forall s, v <> VStr s) ->
  is_premium_customer v w = (w, Ok false).
Proof.
  intros Hv. destruct v; try reflexivity.
  now destruct (Hv s).
Qed.

(** C8. [calculate_shipping] and [is_premium_customer] give the same
    result for the same argument whatever the state of the service, and
    leave that state as it was. *)
Theorem C8_pure_methods (arg : pyval) (w1 w2 : world) :
  (snd (calculate_shipping arg w1) = snd (calculate_shipping arg w2) /\
   fst (calculate_shipping arg w1) = w1) /\
  (snd (is_premium_customer arg w1) = snd (is_premium_customer arg w2) /\
   fst (is_premium_customer arg w1) = w1).
Proof.
  unfold calculate_shipping, is_premium_customer, ret, raise.
  split.
  - destruct (as_num arg) as [n|]; [destruct (num_gt_lit n 50)|]; auto.
  - destruct arg; auto.
Qed.


(** ** Malformed items *)

Lemma sum_from_malformed items :
  Exists malformed_item items ->
  forall total, exists ex, sum_from total items = Raise ex.
Proof.
  induction 1 as [it rest Hbad | it rest _ IH]; intros total; simpl.
  - unfold add_item, getitem.
    destruct Hbad as [Hp | Hq].
    + rewrite Hp. simpl. eauto.
    + destruct (it !! "price"); simpl; [rewrite Hq|]; simpl; eauto.
  - destruct (add_item total it) as [t|ex]; simpl; eauto.
Qed.

(** C5. When the items list contains a dictionary without a 'price' or a
    'quantity' key, [process_order] raises an exception to its caller and
    leaves the service as it was: no record is inserted, nothing is
    printed. *)
Theorem C5_malformed_item_raises order_type customer_name email items discount_code w :
  Exists malformed_item items ->
  exists ex,
    process_order order_type customer_name email items discount_code w = (w, Raise ex).
Proof.
  intros Hbad.
  destruct (sum_from_malformed items Hbad (VInt 0)) as [ex Hex].
  exists ex. apply process_order_raises.
  unfold order_total, sum_items. now rewrite Hex.
Qed.

(** ** Unrecognised order types and codes *)

(** C9. With an order type other than 'premium', 'regular' and
    'wholesale' and a discount code that is empty, None or neither
    'SAVE10' nor 'SAVE20', the total is the raw sum of price×quantity
    over the items: from 0, each item's price times its quantity is added
    in turn, nothing is taken off and an unknown code raises nothing.
    For items of ints it is the exact integer sum of the products.  That
    sum is what a service with the table inserts, prints and returns. *)
Theorem C9_unrecognized_no_reduction order_type items discount_code :
  order_type <> VStr "premium" ->
  order_type <> VStr "regular" ->
  order_type <> VStr "wholesale" ->
  py_truthy discount_code = false \/
    (discount_code <> VStr "SAVE10" /\ discount_code <> VStr "SAVE20") ->
  order_total order_type items discount_code = sum_items items /\
  (forall lines,
     lines_of items lines ->
     order_total order_type items discount_code = raw_sum lines) /\
  (Forall int_item items ->
   order_total order_type items discount_code =
     Ok (VInt (foldr Z.add 0 (map item_product items)))) /\
  (forall customer_name email w rows t,
     sum_items items = Ok t ->
     orders w = Some rows ->
     sqlite_bindable t = true ->
     process_order order_type customer_name email items discount_code w =
       completed customer_name email t rows w).
Proof.
  intros Hp Hr Hw Hcode.
  assert (Htot : order_total order_type items discount_code = sum_items items).
  { unfold order_total, apply_type_discount, apply_code_discount.
    rewrite !py_eq_str_false by assumption.
    destruct (sum_items items) as [t|ex]; simpl; [|reflexivity].
    destruct Hcode as [Hfalsy | [H10 H20]].
    - now rewrite Hfalsy.
    - rewrite !py_eq_str_false by assumption.
      now destruct (py_truthy discount_code). }
  split; [exact Htot|].
  split; [intros lines Hl; rewrite Htot; now apply sum_items_raw|].
  split.
  { intros Hints. rewrite Htot. unfold sum_items.
    now rewrite (sum_from_int_items items Hints 0). }
  intros customer_name email w rows t Hsum Hrows Hbind.
  apply process_order_completes; auto. now rewrite Htot.
Qed.

(** On items whose prices and quantities are ints, the loop computes the
    exact sum of the products. *)
Lemma mk_item_lookup p q :
  mk_item p q !! "price" = Some p /\ mk_item p q !! "quantity" = Some q.
Proof.
  unfold mk_item. split.
  - apply lookup_insert_eq.
  - rewrite lookup_insert_ne by discriminate. apply lookup_singleton_eq.
Qed.

Lemma sum_from_ints (lines : list (Z * Z)) : forall acc,
  sum_from (VInt acc) (map (fun l => mk_item (VInt (fst l)) (VInt (snd l))) lines) =
  Ok (VInt (acc + foldr (fun l a => fst l * snd l + a) 0 lines)).
Proof.
  induction lines as [|[p q] rest IH]; intros acc; simpl.
  - now rewrite Z.add_0_r.
  - unfold add_item, getitem.
    destruct (mk_item_lookup (VInt p) (VInt q)) as [-> ->]. simpl.
    rewrite IH. do 2 f_equal. lia.
Qed.

(** ** The order of the steps *)

(** C2 as amended. A call of [process_order] that returns has, in this
    order, summed price×quantity over the items, applied the order-type
    factor, applied the code factor, inserted one record (customer, total,
    timestamp, as the table keeps them), printed the email line, and
    returned the text that holds the customer name and the total. *)
Theorem C2_steps_in_order order_type customer_name email items discount_code w w' s :
  process_order order_type customer_name email items discount_code w = (w', Ok s) ->
  performs_steps order_type customer_name email items discount_code w (w', Ok s).
Proof.
  intros Hrun.
  destruct (process_order_returns _ _ _ _ _ _ _ _ Hrun)
    as (t & rows & Htot & Hrows & _ & Hout).
  rewrite order_total_steps in Htot.
  destruct (sum_items items) as [s0|] eqn:Hs; simpl in Htot; [|discriminate].
  destruct (scale s0 (type_factor order_type)) as [t1|] eqn:Ht1;
    simpl in Htot; [|discriminate].
  destruct (sum_from_has_lines items _ _ Hs) as (lines & Hl).
  exists lines, s0, t1, t, rows. rewrite Hout. unfold completed. simpl.
  rewrite <- (sum_items_raw items lines Hl).
  repeat split; auto.
Qed.

(** ** Records are only ever added *)

(** C7 as amended. A call of [process_order] that returns has added
    exactly one record after the ones that were there, and no call adds
    more than one; no method changes or removes a record:
    [get_order_by_id] and the other methods leave the table as it was. *)
Theorem C7_records_only_appended order_type customer_name email items discount_code w :
  (let out := process_order order_type customer_name email items discount_code w in
   match orders w with
   | Some rows =>
       exists new,
         orders (fst out) = Some (rows ++ new) /\
         inserted (fst out) = inserted w ++ new /\
         (length new <= 1)%nat /\
         (forall s, snd out = Ok s -> length new = 1%nat)
   | None =>
       orders (fst out) = None /\ inserted (fst out) = inserted w /\
       exists ex, snd out = Raise ex
   end) /\
  (forall order_id, orders (fst (get_order_by_id order_id w)) = orders w) /\
  (forall total, orders (fst (send_email email total w)) = orders w) /\
  (forall total, orders (fst (format_order customer_name total w)) = orders w) /\
  (forall v, orders (fst (is_premium_customer v w)) = orders w) /\
  (forall v, orders (fst (calculate_shipping v w)) = orders w).
Proof.
  split.
  { cbv zeta.
    destruct (process_order order_type customer_name email items discount_code w)
      as [w' [s|ex]] eqn:Hrun; simpl.
    - destruct (process_order_returns _ _ _ _ _ _ _ _ Hrun)
        as (t & rows & _ & Hrows & _ & Hout).
      injection Hout as -> _. rewrite Hrows. eexists [_].
      split; [reflexivity|]. split; [|split; [simpl; lia | reflexivity]].
      unfold inserted. simpl. rewrite omap_app. reflexivity.
    - destruct (process_order_raise_keeps_rows _ _ _ _ _ _ _ _ Hrun) as [Ho Ht].
      assert (Hi : inserted w' = inserted w) by (unfold inserted; now rewrite Ht).
      destruct (orders w) as [rows|].
      + exists []. rewrite app_nil_r, Ho, Hi, app_nil_r.
        repeat split; [simpl; lia | discriminate].
      + eauto. }
  split.
  { intros order_id. unfold get_order_by_id, bind, execute_select, fetchone.
    simpl. destruct (orders w) as [rows|] eqn:Er; simpl; [|now rewrite Er].
    destruct (sqlite_bindable order_id); simpl; [|now rewrite Er].
    now destruct (filter _ rows). }
  split; [intros total; unfold send_email; now destruct (int_str_ok total)|].
  split.
  { intros total. unfold format_order, bind, datetime_now, ret, raise.
    now destruct (int_str_ok total). }
  split; intros v.
  - now destruct v.
  - unfold calculate_shipping.
    destruct (as_num v) as [n|]; [destruct (num_gt_lit n 50)|]; reflexivity.
Qed.

(** ** Totals of non-negative items *)

Lemma int_to_float_nonneg z :
  0 <= z ->
  match int_to_float z with
  | Ok f => F64.nonneg f = true /\ F64.is_inf f = false /\
            (0 < z -> F64.is_zero f = false)
  | Raise ex => ex = OverflowError
  end.
Proof.
  intros Hz. unfold int_to_float.
  destruct (F64.is_inf (F64.of_Z z)) eqn:Einf; [reflexivity|].
  split; [|split; [assumption|]].
  - apply F64Facts.has_sign_nonneg, F64Facts.of_Z_sign, Hz.
  - apply F64Facts.of_Z_pos_not_zero.
Qed.

Lemma py_nonneg_num v :
  py_nonneg v = true ->
  exists n, as_num v = Some n /\
    match n with NInt z => 0 <= z | NFloat f => F64.nonneg f = true end.
Proof.
  unfold py_nonneg. destruct (as_num v) as [[z|f]|]; try discriminate; intros E.
  - exists (NInt z). split; [reflexivity|]. now apply Z.leb_le.
  - exists (NFloat f). auto.
Qed.

Lemma val_is_inf_num v f : as_num v = Some (NFloat f) -> val_is_inf v = F64.is_inf f.
Proof. destruct v as [|[]| | |]; simpl; intros E; try discriminate. now injection E as ->. Qed.

Lemma val_is_inf_int v z : as_num v = Some (NInt z) -> val_is_inf v = false.
Proof. now destruct v. Qed.

Lemma py_mul_nonneg p q :
  py_nonneg p = true -> py_nonneg q = true ->
  val_is_inf p && val_is_zero q = false ->
  val_is_zero p && val_is_inf q = false ->
  nonneg_or_overflow (py_mul p q).
Proof.
  intros Hp Hq.
  destruct (py_nonneg_num p Hp) as (x & Ex & Hx).
  destruct (py_nonneg_num q Hq) as (y & Ey & Hy).
  unfold py_mul, val_is_zero. rewrite Ex, Ey.
  destruct x as [x|f], y as [y|g]; simpl.
  - intros _ _. unfold py_nonneg. simpl. apply Z.leb_le. nia.
  - rewrite (val_is_inf_int p x Ex), (val_is_inf_num q g Ey). simpl.
    intros _ H2. pose proof (int_to_float_nonneg x Hx) as Hc.
    destruct (int_to_float x) as [f|ex]; simpl; [|exact Hc].
    destruct Hc as (Hf & Hinf & Hzero).
    apply F64Facts.mul_nonneg; auto.
    + now rewrite Hinf.
    + destruct (Z.eqb_spec x 0) as [->|Hne]; simpl in H2.
      * rewrite H2. apply andb_false_r.
      * rewrite Hzero by lia. reflexivity.
  - rewrite (val_is_inf_int q y Ey), (val_is_inf_num p f Ex). simpl.
    intros H1 _. pose proof (int_to_float_nonneg y Hy) as Hc.
    destruct (int_to_float y) as [g|ex]; simpl; [|exact Hc].
    destruct Hc as (Hg & Hinf & Hzero).
    apply F64Facts.mul_nonneg; auto.
    + destruct (Z.eqb_spec y 0) as [->|Hne].
      * rewrite andb_true_r in H1. now rewrite H1.
      * rewrite Hzero by lia. apply andb_false_r.
    + rewrite Hinf. apply andb_false_r.
  - rewrite (val_is_inf_num p f Ex), (val_is_inf_num q g Ey).
    intros H1 H2. now apply F64Facts.mul_nonneg.
Qed.

Lemma py_add_nonneg a b :
  py_nonneg a = true -> py_nonneg b = true ->
  nonneg_or_overflow (py_add a b).
Proof.
  intros Ha Hb.
  destruct (py_nonneg_num a Ha) as (x & Ex & Hx).
  destruct (py_nonneg_num b Hb) as (y & Ey & Hy).
  unfold py_add. rewrite Ex, Ey.
  destruct x as [x|f], y as [y|g]; simpl.
  - unfold py_nonneg. simpl. apply Z.leb_le. lia.
  - pose proof (int_to_float_nonneg x Hx) as Hc.
    destruct (int_to_float x) as [f|ex]; simpl; [|exact Hc].
    apply F64Facts.add_nonneg; tauto.
  - pose proof (int_to_float_nonneg y Hy) as Hc.
    destruct (int_to_float y) as [g|ex]; simpl; [|exact Hc].
    apply F64Facts.add_nonneg; tauto.
  - now apply F64Facts.add_nonneg.
Qed.

Lemma add_item_nonneg total it :
  py_nonneg total = true -> nonneg_item_defined it ->
  nonneg_or_overflow (add_item total it).
Proof.
  intros Ht (p & q & Ep & Eq & Hp & Hq & H1 & H2).
  unfold add_item, getitem. rewrite Ep, Eq. simpl.
  pose proof (py_mul_nonneg p q Hp Hq H1 H2) as Hm.
  destruct (py_mul p q) as [line|ex]; simpl; [|exact Hm].
  now apply py_add_nonneg.
Qed.

Lemma sum_from_nonneg items :
  Forall nonneg_item_defined items ->
  forall total, py_nonneg total = true -> nonneg_or_overflow (sum_from total items).
Proof.
  induction 1 as [|it rest Hit _ IH]; intros total Ht; simpl; [exact Ht|].
  pose proof (add_item_nonneg total it Ht Hit) as Ha.
  destruct (add_item total it) as [t|ex]; simpl; [|exact Ha].
  now apply IH.
Qed.

Lemma scale_nonneg t factor :
  py_nonneg t = true ->
  (forall k, factor = Some k -> exists m e, k = S754_finite false m e) ->
  nonneg_or_overflow (scale t factor).
Proof.
  intros Ht Hk. destruct factor as [k|]; simpl; [|exact Ht].
  destruct (Hk k eq_refl) as (m & e & ->).
  apply py_mul_nonneg; auto.
  - unfold val_is_zero. simpl. apply andb_false_r.
  - apply andb_false_r.
Qed.

Lemma type_factor_finite order_type k :
  type_factor order_type = Some k -> exists m e, k = S754_finite false m e.
Proof.
  unfold type_factor.
  repeat (match goal with |- context [py_eq_str ?v ?l] => destruct (py_eq_str v l) end;
          try (intros [= <-]; unfold F64.lit_0_9, F64.lit_0_95, F64.lit_0_8; eauto));
  discriminate.
Qed.

Lemma code_factor_finite discount_code k :
  code_factor discount_code = Some k -> exists m e, k = S754_finite false m e.
Proof.
  unfold code_factor.
  repeat (match goal with |- context [py_eq_str ?v ?l] => destruct (py_eq_str v l) end;
          try (intros [= <-]; unfold F64.lit_0_9, F64.lit_0_8; eauto));
  discriminate.
Qed.

(** C6 as amended. When every item's price and quantity are [>= 0] and
    no item multiplies an infinity by a zero, the total that
    [process_order] computes is [>= 0]: the computation gives such a
    total, or it raises [OverflowError] and gives none; the total a
    returning call has inserted, printed and returned is therefore
    [>= 0]. *)
Theorem C6_total_nonneg order_type items discount_code :
  Forall nonneg_item_defined items ->
  nonneg_or_overflow (order_total order_type items discount_code) /\
  (forall customer_name email w w' s,
     process_order order_type customer_name email items discount_code w = (w', Ok s) ->
     exists t rows,
       py_nonneg t = true /\
       (w', Ok s) = completed customer_name email t rows w).
Proof.
  intros Hitems.
  assert (Htot : nonneg_or_overflow (order_total order_type items discount_code)).
  { rewrite order_total_steps.
    pose proof (sum_from_nonneg items Hitems (VInt 0) eq_refl) as Hs.
    fold (sum_items items) in Hs.
    destruct (sum_items items) as [s0|ex]; simpl; [|exact Hs].
    pose proof (scale_nonneg s0 _ Hs (type_factor_finite order_type)) as H1.
    destruct (scale s0 (type_factor order_type)) as [t1|ex]; simpl; [|exact H1].
    exact (scale_nonneg t1 _ H1 (code_factor_finite discount_code)). }
  split; [exact Htot|].
  intros customer_name email w w' s Hrun.
  destruct (process_order_returns _ _ _ _ _ _ _ _ Hrun)
    as (t & rows & Ht & _ & _ & Hout).
  exists t, rows. split; [|exact Hout].
  now rewrite Ht in Htot.
Qed.

End Properties.

(** ** The loop over the items *)

Section Pricing.
Context `{rt : Runtime}.

(** The loop over a concatenation is the loop over the second list,
    started from the total of the first. *)
Lemma sum_from_app (xs ys : list item) : forall total,
  sum_from total (xs ++ ys) = rbind (sum_from total xs) (fun t => sum_from t ys).
Proof.
  induction xs as [|it xs IH]; intros total; simpl; [reflexivity|].
  destruct (add_item total it) as [t|ex]; simpl; [apply IH | reflexivity].
Qed.

(** X1. The first item on which the loop fails decides the outcome: the
    call raises that item's exception, whatever comes after it in the
    list, and the service is left as it was. *)
Theorem first_failing_item_decides order_type customer_name email
    (good : list item) (bad : item) (rest : list item) discount_code w t ex :
  sum_items good = Ok t ->
  add_item t bad = Raise ex ->
  process_order order_type customer_name email (good ++ bad :: rest) discount_code w =
    (w, Raise ex).
Proof.
  intros Hgood Hbad. apply process_order_raises.
  unfold order_total, sum_items in *.
  rewrite sum_from_app, Hgood. simpl. now rewrite Hbad.
Qed.

Lemma int_to_float_raise z ex : int_to_float z = Raise ex -> ex = OverflowError.
Proof.
  unfold int_to_float. destruct (F64.is_inf (F64.of_Z z)); congruence.
Qed.

Lemma num_binop_cases fz ff a b :
  match num_binop fz ff a b with
  | Ok v => int_or_float v
  | Raise ex => ex = OverflowError
  end.
Proof.
  destruct a as [x|f], b as [y|g]; simpl; auto.
  - destruct (int_to_float x) eqn:E; simpl; eauto using int_to_float_raise.
  - destruct (int_to_float y) eqn:E; simpl; eauto using int_to_float_raise.
Qed.

Lemma is_number_as_num v : is_number v <-> exists n, as_num v = Some n.
Proof. reflexivity. Qed.

Lemma not_number_as_num v : ~ is_number v <-> as_num v = None.
Proof.
  unfold is_number. destruct (as_num v) as [n|]; split; intros H.
  - destruct H. eauto.
  - discriminate.
  - reflexivity.
  - intros [n Hn]. discriminate.
Qed.

(** What a product is: a number from two numbers, a string from a string
    and an int, and otherwise an exception. *)
Lemma py_mul_cases p q :
  match py_mul p q with
  | Ok v =>
      (is_number p /\ is_number q /\ int_or_float v) \/
      ((~ is_number p \/ ~ is_number q) /\ exists s, v = VStr s)
  | Raise ex =>
      (ex = TypeError /\ (~ is_number p \/ ~ is_number q)) \/
      ex = OverflowError
  end.
Proof.
  unfold py_mul, str_times.
  destruct (as_num p) as [x|] eqn:Ep, (as_num q) as [y|] eqn:Eq; cbv beta iota.
  - pose proof (num_binop_cases Z.mul F64.mul x y) as H.
    assert (is_number p) by (rewrite is_number_as_num; eauto).
    assert (is_number q) by (rewrite is_number_as_num; eauto).
    destruct (num_binop Z.mul F64.mul x y) as [v|ex]; destruct x;
      [left|left|right|right]; auto.
  - apply not_number_as_num in Eq.
    destruct x as [n|f]; [destruct q; simpl in *|]; try discriminate;
      try destruct (_ && _); eauto 6.
  - apply not_number_as_num in Ep.
    destruct y as [n|f]; [destruct p; simpl in *|]; try discriminate;
      try destruct (_ && _); eauto 6.
  - apply not_number_as_num in Ep. auto.
Qed.

Lemma py_add_cases total v :
  int_or_float total ->
  match py_add total v with
  | Ok v' => is_number v /\ int_or_float v'
  | Raise ex => (ex = TypeError /\ ~ is_number v) \/ (ex = OverflowError /\ is_number v)
  end.
Proof.
  intros Ht. unfold py_add.
  assert (exists x, as_num total = Some x) as [x ->] by (destruct total; simpl in *; eauto; tauto).
  destruct (as_num v) as [y|] eqn:Ev; cbv beta iota.
  - assert (is_number v) by (rewrite is_number_as_num; eauto).
    pose proof (num_binop_cases Z.add F64.add x y) as H1.
    destruct (num_binop Z.add F64.add x y) as [v'|ex]; [|right]; auto.
  - apply not_number_as_num in Ev. auto.
Qed.

(** One turn of the loop, from a total that is an int or a float. *)
Lemma add_item_cases total it :
  int_or_float total ->
  match add_item total it with
  | Ok t => int_or_float t /\ numeric_item it
  | Raise ex =>
      (ex = KeyError "price" /\ it !! "price" = None) \/
      (ex = KeyError "quantity" /\ it !! "quantity" = None) \/
      (ex = TypeError /\ non_numeric_item it) \/
      ex = OverflowError
  end.
Proof.
  intros Ht. unfold add_item, getitem.
  destruct (it !! "price") as [p|] eqn:Ep; simpl; [|auto].
  destruct (it !! "quantity") as [q|] eqn:Eq; simpl; [|auto].
  pose proof (py_mul_cases p q) as Hm.
  destruct (py_mul p q) as [line|ex]; simpl.
  - pose proof (py_add_cases total line Ht) as Ha.
    destruct Hm as [(Hp & Hq & Hl) | (Hbad & s & ->)].
    + destruct (py_add total line) as [t|ex].
      * split; [tauto|]. exists p, q. auto.
      * destruct Ha as [[_ Hn] | [-> _]]; [|auto].
        destruct Hn. destruct line; simpl in Hl; try tauto; unfold is_number; simpl; eauto.
    + destruct (py_add total (VStr s)) as [t|ex].
      * destruct Ha as [[n Hn] _]. discriminate.
      * destruct Ha as [[-> _] | [_ [n Hn]]]; [|discriminate].
        right. right. left. split; [reflexivity|]. exists p, q. auto.
  - destruct Hm as [[-> Hbad] | ->]; [|auto].
    right. right. left. split; [reflexivity|]. exists p, q. auto.
Qed.

Lemma sum_from_cases items : forall total,
  int_or_float total ->
  match sum_from total items with
  | Ok t => int_or_float t /\ Forall numeric_item items
  | Raise ex =>
      (ex = KeyError "price" /\ Exists (fun it => it !! "price" = None) items) \/
      (ex = KeyError "quantity" /\ Exists (fun it => it !! "quantity" = None) items) \/
      (ex = TypeError /\ Exists non_numeric_item items) \/
      ex = OverflowError
  end.
Proof.
  induction items as [|it rest IH]; intros total Ht; simpl; [auto|].
  pose proof (add_item_cases total it Ht) as Ha.
  destruct (add_item total it) as [t|ex]; simpl.
  - destruct Ha as [Ht' Hit]. specialize (IH t Ht').
    destruct (sum_from t rest) as [t'|ex].
    + destruct IH. auto.
    + destruct IH as [[-> H] | [[-> H] | [[-> H] | ->]]]; auto 6.
  - destruct Ha as [[-> H] | [[-> H] | [[-> H] | ->]]]; auto 6.
Qed.

(** A factor applied to an int or a float gives a float, or the
    [OverflowError] of an int too large for one. *)
Lemma scale_cases total factor :
  int_or_float total ->
  match scale total factor with
  | Ok t => int_or_float t /\ (is_Some factor -> exists f, t = VFloat f)
  | Raise ex => ex = OverflowError
  end.
Proof.
  intros Ht. destruct factor as [k|]; simpl.
  - destruct total as [| |z|f|]; simpl in Ht; try tauto; unfold py_mul; simpl.
    + destruct (int_to_float z) eqn:E; simpl; eauto using int_to_float_raise.
    + eauto.
  - split; [assumption|]. intros [k Hk]. discriminate.
Qed.

Lemma order_total_cases order_type items discount_code :
  match order_total order_type items discount_code with
  | Ok t =>
      int_or_float t /\ Forall numeric_item items /\
      (is_Some (type_factor order_type) \/ is_Some (code_factor discount_code) ->
       exists f, t = VFloat f)
  | Raise ex =>
      (ex = KeyError "price" /\ Exists (fun it => it !! "price" = None) items) \/
      (ex = KeyError "quantity" /\ Exists (fun it => it !! "quantity" = None) items) \/
      (ex = TypeError /\ Exists non_numeric_item items) \/
      ex = OverflowError
  end.
Proof.
  rewrite order_total_steps.
  pose proof (sum_from_cases items (VInt 0) I) as Hs. fold (sum_items items) in Hs.
  destruct (sum_items items) as [s|ex]; simpl; [|exact Hs].
  destruct Hs as [Hs Hitems].
  pose proof (scale_cases s (type_factor order_type) Hs) as H1.
  destruct (scale s (type_factor order_type)) as [t1|ex]; simpl; [|auto].
  destruct H1 as [Ht1 Hf1].
  pose proof (scale_cases t1 (code_factor discount_code) Ht1) as H2.
  destruct (scale t1 (code_factor discount_code)) as [t|ex] eqn:E2; simpl; [|auto].
  destruct H2 as [Ht Hf2].
  split; [assumption|]. split; [assumption|].
  intros [Hty | Hcode]; [|auto].
  destruct (Hf1 Hty) as [f ->].
  destruct (code_factor discount_code) as [k|]; simpl in E2.
  - unfold py_mul in E2. simpl in E2. injection E2 as <-. eauto.
  - injection E2 as <-. eauto.
Qed.

(** X2. When the pricing of [process_order] raises, it is [KeyError] for
    'price' and some item lacks that key, or [KeyError] for 'quantity'
    and some item lacks that one, or [TypeError] and some item has a
    price or a quantity that is not a number, or [OverflowError].  No
    other key is ever reported. *)
Theorem pricing_failure_causes order_type items discount_code ex :
  order_total order_type items discount_code = Raise ex ->
  (ex = KeyError "price" /\ Exists (fun it => it !! "price" = None) items) \/
  (ex = KeyError "quantity" /\ Exists (fun it => it !! "quantity" = None) items) \/
  (ex = TypeError /\ Exists non_numeric_item items) \/
  ex = OverflowError.
Proof.
  intros E. pose proof (order_total_cases order_type items discount_code) as H.
  now rewrite E in H.
Qed.

(** X3. A call of [process_order] returns only when every item has a
    number under 'price' and under 'quantity': a string price is not
    accepted even though a string times an int is a string, because the
    sum with the running total then fails.  The total is an int or a
    float. *)
Theorem returns_only_on_numeric_items order_type customer_name email items
    discount_code w w' s :
  process_order order_type customer_name email items discount_code w = (w', Ok s) ->
  Forall numeric_item items /\
  exists t, order_total order_type items discount_code = Ok t /\ int_or_float t.
Proof.
  intros Hrun.
  destruct (process_order_returns _ _ _ _ _ _ _ _ Hrun) as (t & rows & Ht & _).
  pose proof (order_total_cases order_type items discount_code) as H.
  rewrite Ht in H. destruct H as (Hiof & Hitems & _).
  split; [assumption|]. eauto.
Qed.

(** X8. With a recognised order type or a recognised discount code the
    total is a float, so binding it to the INSERT cannot fail: when the
    pricing returns and the table exists, the call goes through. *)
Theorem discounted_total_is_float order_type customer_name email items
    discount_code t :
  is_Some (type_factor order_type) \/ is_Some (code_factor discount_code) ->
  order_total order_type items discount_code = Ok t ->
  (exists f, t = VFloat f) /\
  forall w rows,
    orders w = Some rows ->
    process_order order_type customer_name email items discount_code w =
      completed customer_name email t rows w.
Proof.
  intros Hfactor Ht.
  pose proof (order_total_cases order_type items discount_code) as H.
  rewrite Ht in H. destruct H as (_ & _ & Hf).
  destruct (Hf Hfactor) as [f ->].
  split; [eauto|]. intros w rows Hrows.
  now apply process_order_completes.
Qed.

End Pricing.

(** ** What the total depends on *)

Section Totals.
Context `{rt : Runtime}.

Lemma add_item_same_fields total a b :
  same_order_fields a b -> add_item total a = add_item total b.
Proof. intros [Hp Hq]. unfold add_item, getitem. now rewrite Hp, Hq. Qed.

Lemma sum_from_same_fields items items' :
  Forall2 same_order_fields items items' ->
  forall total, sum_from total items = sum_from total items'.
Proof.
  induction 1 as [|a b restA restB Hab _ IH]; intros total; simpl; [reflexivity|].
  rewrite (add_item_same_fields total a b Hab).
  destruct (add_item total b); simpl; auto.
Qed.

(** X4. Only the 'price' and the 'quantity' of an item count: two lists
    of items that agree on these two keys, item by item, give the same
    call, whatever other keys the dictionaries hold. *)
Theorem other_keys_are_ignored order_type customer_name email items items'
    discount_code w :
  Forall2 same_order_fields items items' ->
  process_order order_type customer_name email items discount_code w =
  process_order order_type customer_name email items' discount_code w.
Proof.
  intros Hsame. unfold process_order, order_total, sum_items.
  now rewrite (sum_from_same_fields items items' Hsame).
Qed.

(** X5. When every price and every quantity is an int, and neither the
    order type nor the code is a recognised one, the total is the exact
    integer sum of the products: no rounding takes place, however large
    the numbers. *)
Theorem int_items_exact_total order_type items discount_code :
  Forall int_item items ->
  type_factor order_type = None ->
  code_factor discount_code = None ->
  order_total order_type items discount_code =
    Ok (VInt (foldr Z.add 0 (map item_product items))).
Proof.
  intros Hitems Hty Hcode. rewrite order_total_steps. unfold sum_items.
  rewrite (sum_from_int_items items Hitems 0), Hty, Hcode. reflexivity.
Qed.

Lemma sum_products_perm (items items' : list item) :
  items ≡ₚ items' ->
  foldr Z.add 0 (map item_product items) = foldr Z.add 0 (map item_product items').
Proof.
  induction 1; simpl; lia.
Qed.

(** X6. For items of ints the order of the items does not matter: a
    permutation of the list gives the same sum, hence the same total
    under any order type and code. *)
Theorem int_items_order_irrelevant order_type items items' discount_code :
  Forall int_item items ->
  items ≡ₚ items' ->
  order_total order_type items discount_code =
  order_total order_type items' discount_code.
Proof.
  intros Hitems Hperm.
  assert (Hitems' : Forall int_item items') by now rewrite <- Hperm.
  unfold order_total, sum_items.
  rewrite (sum_from_int_items items Hitems 0), (sum_from_int_items items' Hitems' 0).
  now rewrite (sum_products_perm items items' Hperm).
Qed.

(** X7. An order without items is accepted: its total is the int 0, or
    the float 0.0 when a factor applies, and on a service with the table
    it is inserted, printed and returned like any other. *)
Theorem empty_order_is_accepted order_type customer_name email discount_code w rows :
  orders w = Some rows ->
  order_total order_type [] discount_code = Ok (empty_total order_type discount_code) /\
  process_order order_type customer_name email [] discount_code w =
    completed customer_name email (empty_total order_type discount_code) rows w.
Proof.
  intros Hrows.
  assert (Ht : order_total order_type [] discount_code =
               Ok (empty_total order_type discount_code)).
  { rewrite order_total_steps. unfold empty_total, type_factor, code_factor.
    repeat (match goal with |- context [py_eq_str ?v ?l] => destruct (py_eq_str v l) end);
      reflexivity. }
  split; [exact Ht|].
  apply process_order_completes; auto.
  unfold empty_total. now destruct (type_factor order_type), (code_factor discount_code).
Qed.

(** X9. The order types and the codes share their factors: a 'premium'
    order costs what the code 'SAVE10' gives on an order of no
    recognised type, and a 'wholesale' order what 'SAVE20' gives. *)
Theorem type_and_code_share_factors order_type items discount_code :
  type_factor order_type = None ->
  code_factor discount_code = None ->
  order_total (VStr "premium") items discount_code =
    order_total order_type items (VStr "SAVE10") /\
  order_total (VStr "wholesale") items discount_code =
    order_total order_type items (VStr "SAVE20").
Proof.
  intros Hty Hcode. rewrite !order_total_steps, Hty, Hcode.
  change (type_factor (VStr "premium")) with (Some F64.lit_0_9).
  change (type_factor (VStr "wholesale")) with (Some F64.lit_0_8).
  change (code_factor (VStr "SAVE10")) with (Some F64.lit_0_9).
  change (code_factor (VStr "SAVE20")) with (Some F64.lit_0_8).
  destruct (sum_items items) as [s|ex]; simpl; [|auto].
  split.
  - now destruct (py_mul s (VFloat F64.lit_0_9)).
  - now destruct (py_mul s (VFloat F64.lit_0_8)).
Qed.

End Totals.

(** ** The table and the lookups *)

Section Table.
Context `{rt : Runtime}.

Lemma inserted_emit w ev :
  inserted (emit ev w) =
  inserted w ++ match ev with EvInsert r => [r] | _ => [] end.
Proof.
  unfold inserted, emit. simpl. rewrite omap_app. now destruct ev.
Qed.

(** What [get_order_by_id] does on a service with the table, for an id
    that can be bound: the cursor takes the matching rows, the first of
    them is fetched, the others stay pending. *)
Lemma get_order_by_id_runs order_id w rows :
  orders w = Some rows ->
  sqlite_bindable order_id = true ->
  get_order_by_id order_id w =
    (mk_world (Some rows) (tail (matching order_id rows))
       (trace w ++ [EvSelect order_id]) (ticks w) (clock w),
     Ok (head (matching order_id rows))).
Proof.
  intros Hrows Hbind.
  unfold get_order_by_id, bind, execute_select, fetchone. simpl.
  rewrite Hrows, Hbind. fold (matching order_id rows). simpl.
  destruct (matching order_id rows); unfold emit, set_cursor; simpl;
    now rewrite Hrows.
Qed.

Lemma get_order_by_id_fails order_id w :
  orders w = None \/ sqlite_bindable order_id = false ->
  get_order_by_id order_id w =
    (set_cursor [] w,
     Raise (match orders w with None => OperationalError | Some _ => OverflowError end)).
Proof.
  intros H. unfold get_order_by_id, bind, execute_select. simpl.
  destruct (orders w) as [rows|]; [|reflexivity].
  destruct H as [H|H]; [discriminate|]. now rewrite H.
Qed.

Lemma head_filter_first {A} (P : A -> bool) (l : list A) :
  match head (filter (fun x => P x = true) l) with
  | Some x =>
      exists before after,
        l = before ++ x :: after /\ P x = true /\
        Forall (fun y => P y = false) before
  | None => Forall (fun y => P y = false) l
  end.
Proof.
  induction l as [|a l IH]; simpl; [constructor|].
  rewrite filter_cons. destruct (decide (P a = true)) as [Ha|Ha]; simpl.
  - exists [], l. auto.
  - apply not_true_is_false in Ha.
    destruct (head (filter (fun x => P x = true) l)) as [x|].
    + destruct IH as (before & after & -> & Hx & Hb).
      exists (a :: before), after. auto.
    + constructor; assumption.
Qed.

(** X10. [get_order_by_id] returns a row of the table whose id satisfies
    the query, and [None] exactly when no row does; the table is left as
    it was. *)
Theorem get_order_by_id_finds_a_match order_id w rows :
  orders w = Some rows ->
  sqlite_bindable order_id = true ->
  orders (fst (get_order_by_id order_id w)) = Some rows /\
  exists res,
    snd (get_order_by_id order_id w) = Ok res /\
    match res with
    | Some r => r ∈ rows /\ id_matches order_id (row_id r) = true
    | None => Forall (fun r' => id_matches order_id (row_id r') = false) rows
    end.
Proof.
  intros Hrows Hbind. rewrite (get_order_by_id_runs _ _ _ Hrows Hbind). simpl.
  split; [reflexivity|]. eexists. split; [reflexivity|].
  pose proof (head_filter_first (fun r => id_matches order_id (row_id r)) rows) as H.
  cbv beta in H. fold (matching order_id rows) in H.
  destruct (head (matching order_id rows)) as [r|]; [|exact H].
  destruct H as (before & after & -> & Hr & _).
  split; [|exact Hr]. apply elem_of_app. right. apply elem_of_cons. now left.
Qed.

(** X11. A lookup does not depend on what an earlier lookup left in the
    cursor: asking twice gives the same answer twice, and asking for
    another id in between changes nothing. *)
Theorem lookup_ignores_earlier_lookups order_id other_id w :
  snd (get_order_by_id order_id (fst (get_order_by_id other_id w))) =
  snd (get_order_by_id order_id w).
Proof.
  destruct (orders w) as [rows|] eqn:Hrows.
  - destruct (sqlite_bindable other_id) eqn:Hother.
    + rewrite (get_order_by_id_runs other_id w rows Hrows Hother). simpl.
      destruct (sqlite_bindable order_id) eqn:Hid.
      * now rewrite !(get_order_by_id_runs order_id _ rows) by auto.
      * rewrite !get_order_by_id_fails by auto. simpl. now rewrite Hrows.
    + rewrite (get_order_by_id_fails other_id w) by auto. simpl.
      destruct (sqlite_bindable order_id) eqn:Hid.
      * now rewrite !(get_order_by_id_runs order_id _ rows) by auto.
      * rewrite !get_order_by_id_fails by auto. simpl. now rewrite Hrows.
  - rewrite (get_order_by_id_fails other_id w) by auto. simpl.
    rewrite !get_order_by_id_fails by auto. simpl. now rewrite Hrows.
Qed.

Lemma matching_app order_id (rows extra : list order_row) :
  matching order_id (rows ++ extra) = matching order_id rows ++ matching order_id extra.
Proof. unfold matching. apply filter_app. Qed.


Lemma matching_one order_id (r : order_row) :
  matching order_id [r] = if id_matches order_id (row_id r) then [r] else [].
Proof.
  unfold matching. rewrite filter_cons, filter_nil.
  destruct (decide (id_matches order_id (row_id r) = true)) as [Ht|Hf].
  - now rewrite Ht.
  - apply not_true_is_false in Hf. now rewrite Hf.
Qed.


(** X13. Storing an order does not disturb the lookups of the others:
    for an id that the new row does not satisfy, [get_order_by_id]
    answers after the call what it answered before. *)
Theorem new_order_keeps_other_lookups order_type customer_name email items
    discount_code order_id w rows :
  orders w = Some rows ->
  id_matches order_id (fresh_id rows) = false ->
  snd (get_order_by_id order_id
         (fst (process_order order_type customer_name email items discount_code w))) =
  snd (get_order_by_id order_id w).
Proof.
  intros Hrows Hnew.
  destruct (process_order order_type customer_name email items discount_code w)
    as [w' [s|ex]] eqn:Hrun; simpl.
  - destruct (process_order_returns _ _ _ _ _ _ _ _ Hrun)
      as (t & rows' & _ & Hrows' & _ & Hout).
    rewrite Hrows in Hrows'. injection Hrows' as <-.
    injection Hout as -> _.
    destruct (sqlite_bindable order_id) eqn:Hbind.
    + erewrite get_order_by_id_runs; [|reflexivity|exact Hbind].
      rewrite (get_order_by_id_runs order_id w rows Hrows Hbind). simpl.
      rewrite matching_app, matching_one. simpl. rewrite Hnew.
      now rewrite app_nil_r.
    + rewrite !get_order_by_id_fails by auto. simpl. now rewrite Hrows.
  - destruct (process_order_raise_keeps_rows _ _ _ _ _ _ _ _ Hrun) as [Ho _].
    rewrite Hrows in Ho.
    destruct (sqlite_bindable order_id) eqn:Hbind.
    + now rewrite (get_order_by_id_runs order_id w' rows Ho Hbind),
        (get_order_by_id_runs order_id w rows Hrows Hbind).
    + rewrite !get_order_by_id_fails by auto. simpl. now rewrite Ho, Hrows.
Qed.

(** X14. A value that cannot be bound stops the statement: an int total
    outside the 64-bit range (possible only without a discount) makes
    [process_order] raise [OverflowError] with nothing stored and
    nothing printed, and such an id does the same to
    [get_order_by_id]. *)
Theorem oversized_int_is_not_bound order_type customer_name email items discount_code
    z w rows :
  order_total order_type items discount_code = Ok (VInt z) ->
  ~ (- 2 ^ 63 <= z < 2 ^ 63) ->
  orders w = Some rows ->
  process_order order_type customer_name email items discount_code w =
    (set_cursor [] (tick w), Raise OverflowError) /\
  get_order_by_id (VInt z) w = (set_cursor [] w, Raise OverflowError).
Proof.
  intros Ht Hz Hrows.
  assert (Hbind : sqlite_bindable (VInt z) = false).
  { simpl. apply andb_false_iff.
    destruct (Z.leb_spec (- 2 ^ 63) z); [right|left; reflexivity].
    apply Z.ltb_ge. lia. }
  split.
  - unfold process_order, bind, lift, datetime_now, execute_insert.
    rewrite Ht. simpl. simpl in Hbind. now rewrite Hrows, Hbind.
  - rewrite get_order_by_id_fails by auto. now rewrite Hrows.
Qed.

(** What one call does to the table: nothing, or, for a call of
    [process_order], one row added at the end. *)
Lemma after_call_table w c :
  (orders (after_call w c) = orders w /\ inserted (after_call w c) = inserted w) \/
  (is_process_order c = true /\
   exists rows r,
     orders w = Some rows /\ orders (after_call w c) = Some (rows ++ [r]) /\
     row_id r = fresh_id rows /\
     inserted (after_call w c) = inserted w ++ [r]).
Proof.
  destruct c as [ot name email items dc|email total|name total|oid|v|v]; simpl.
  - destruct (process_order ot name email items dc w) as [w' [s|ex]] eqn:Hrun; simpl.
    + right. split; [reflexivity|].
      destruct (process_order_returns _ _ _ _ _ _ _ _ Hrun)
        as (t & rows & _ & Hrows & _ & Hout).
      injection Hout as -> _. eexists rows, _.
      split; [exact Hrows|]. split; [reflexivity|]. split; [reflexivity|].
      unfold inserted. simpl. now rewrite omap_app.
    + left. destruct (process_order_raise_keeps_rows _ _ _ _ _ _ _ _ Hrun) as [Ho Ht].
      split; [exact Ho|]. unfold inserted. now rewrite Ht.
  - left. unfold send_email. destruct (int_str_ok total); simpl; [|auto].
    split; [reflexivity|]. rewrite inserted_emit. apply app_nil_r.
  - left. unfold format_order, bind, datetime_now, ret, raise.
    destruct (int_str_ok total); split; reflexivity.
  - left. destruct (orders w) as [rows|] eqn:Hrows.
    + destruct (sqlite_bindable oid) eqn:Hbind.
      * rewrite (get_order_by_id_runs oid w rows Hrows Hbind). simpl.
        split; [reflexivity|]. unfold inserted. simpl.
        rewrite omap_app. apply app_nil_r.
      * rewrite get_order_by_id_fails by auto. simpl. auto.
    + rewrite get_order_by_id_fails by auto. simpl. auto.
  - left. now destruct v.
  - left. unfold calculate_shipping.
    destruct (as_num v) as [n|]; [destruct (num_gt_lit n 50)|]; auto.
Qed.

Lemma after_calls_snoc w cs c :
  after_calls w (cs ++ [c]) = after_call (after_calls w cs) c.
Proof. unfold after_calls. now rewrite fold_left_app. Qed.

(** X15. Over any sequence of method calls the table only grows at its
    end: the rows that were there stay, in place and unchanged, the new
    rows are exactly the inserted ones, and there are at most as many of
    them as calls of [process_order]. *)
Theorem table_only_grows w cs rows :
  orders w = Some rows ->
  exists new,
    orders (after_calls w cs) = Some (rows ++ new) /\
    inserted (after_calls w cs) = inserted w ++ new /\
    (length new <= length (filter (fun c => is_process_order c = true) cs))%nat.
Proof.
  intros Hrows. induction cs as [|c cs IH] using rev_ind.
  - exists []. simpl. rewrite !app_nil_r. auto.
  - destruct IH as (new & Ho & Hi & Hlen).
    rewrite after_calls_snoc, filter_app, length_app.
    destruct (after_call_table (after_calls w cs) c)
      as [[Ho' Hi'] | (Hc & rows' & r & Hr & Ho' & _ & Hi')].
    + exists new. rewrite Ho', Hi'. repeat split; auto. lia.
    + rewrite Ho in Hr. injection Hr as <-.
      exists (new ++ [r]). rewrite Ho', Hi', Hi, <- !app_assoc, length_app.
      repeat split; auto.
      rewrite filter_cons, filter_nil.
      destruct (decide (is_process_order c = true)); [simpl; lia | contradiction].
Qed.

(** X16. No method creates the table: on a service whose database has no
    [orders] table, as after [__init__] on a new file, no sequence of
    calls stores anything, every [process_order] raises and every
    [get_order_by_id] raises [OperationalError]. *)
Theorem table_is_never_created clk cs :
  let w := after_calls (init None clk) cs in
  orders w = None /\
  inserted w = [] /\
  (forall order_type customer_name email items discount_code,
     exists ex,
       snd (process_order order_type customer_name email items discount_code w) =
         Raise ex /\
       (ex = OperationalError \/
        order_total order_type items discount_code = Raise ex)) /\
  (forall order_id, snd (get_order_by_id order_id w) = Raise OperationalError).
Proof.
  intros w.
  assert (H : orders w = None /\ inserted w = []).
  { subst w. induction cs as [|c cs IH] using rev_ind; [auto|].
    rewrite after_calls_snoc. destruct IH as [Ho Hi].
    destruct (after_call_table (after_calls (init None clk) cs) c)
      as [[Ho' Hi'] | (_ & rows & r & Hr & _)].
    - now rewrite Ho', Hi'.
    - congruence. }
  destruct H as [Ho Hi]. split; [exact Ho|]. split; [exact Hi|]. split.
  - intros order_type customer_name email items discount_code.
    destruct (order_total order_type items discount_code) as [t|ex] eqn:Et.
    + exists OperationalError. split; [|auto].
      unfold process_order, bind, lift, datetime_now, execute_insert.
      rewrite Et. simpl. now rewrite Ho.
    + exists ex. split; [|auto]. now rewrite (process_order_raises _ _ _ _ _ _ ex Et).
  - intros order_id. rewrite get_order_by_id_fails by auto. simpl. now rewrite Ho.
Qed.

(** X17. When the table never gives a new row an id that is in use, the
    ids stay distinct over any sequence of calls. *)
Theorem ids_stay_distinct w cs rows :
  (forall rs, fresh_id rs ∉ row_id <$> rs) ->
  orders w = Some rows ->
  NoDup (row_id <$> rows) ->
  exists rows',
    orders (after_calls w cs) = Some rows' /\ NoDup (row_id <$> rows').
Proof.
  intros Hfresh Hrows Hnodup. induction cs as [|c cs IH] using rev_ind.
  - exists rows. auto.
  - destruct IH as (rows1 & Ho & Hnd). rewrite after_calls_snoc.
    destruct (after_call_table (after_calls w cs) c)
      as [[Ho' _] | (_ & rows2 & r & Hr & Ho' & Hid & _)].
    + exists rows1. now rewrite Ho'.
    + rewrite Ho in Hr. injection Hr as <-.
      exists (rows1 ++ [r]). split; [exact Ho'|].
      rewrite fmap_app. apply NoDup_app. split; [exact Hnd|]. split.
      * intros i Hi Hi'. simpl in Hi'. apply list_elem_of_singleton in Hi'.
        subst i. rewrite Hid in Hi. exact (Hfresh rows1 Hi).
      * simpl. apply NoDup_singleton.
Qed.

End Table.

(** ** The two predicates *)

Section Predicates.

Lemma append_nil_l s : ("" +:+ s)%string = s.
Proof. reflexivity. Qed.

(** X18. A premium name has at least three characters, and stays premium
    whatever is appended to it. *)
Theorem premium_names_are_prefix_closed s w :
  is_premium_customer (VStr s) w = (w, Ok true) ->
  (3 <= String.length s)%nat /\
  forall suffix, is_premium_customer (VStr (s +:+ suffix)) w = (w, Ok true).
Proof.
  unfold is_premium_customer, ret. intros [= Hp].
  apply prefix_app in Hp as [rest ->].
  rewrite !append_cons, append_nil_l. split; [simpl; lia|].
  intros suffix. do 2 f_equal. apply prefix_app. exists (rest +:+ suffix)%string.
  now rewrite !append_cons, append_nil_l.
Qed.

(** X19. Shipping never gets cheaper with the weight: for int weights,
    the heavier parcel costs at least as much as the lighter one, and
    there are only the two prices. *)
Theorem shipping_is_monotone z1 z2 w :
  z1 <= z2 ->
  exists c1 c2,
    calculate_shipping (VInt z1) w = (w, Ok (VFloat c1)) /\
    calculate_shipping (VInt z2) w = (w, Ok (VFloat c2)) /\
    F64.leb c1 c2 = true /\
    (c1 = F64.lit_9_99 \/ c1 = F64.lit_25_99) /\
    (c2 = F64.lit_9_99 \/ c2 = F64.lit_25_99).
Proof.
  intros Hle. unfold calculate_shipping, ret. simpl.
  destruct (Z.ltb_spec 50 z1), (Z.ltb_spec 50 z2); try lia;
    eexists _, _; repeat split; auto.
Qed.

End Predicates.

(** ** The model on concrete calls *)

#[local] Existing Instance Demo.runtime.

(** A 'premium' order of 100: one row with the total 90.0, one line
    printed, the text returned, and the row can then be read back. *)
Example premium_order_runs :
  let out := Demo.order_for_ann (VStr "premium") Demo.items_100 VNone Demo.w0 in
  orders (fst out) = Some [mk_row 1 (VStr "Ann") (VFloat F64.lit_90) 1000] /\
  trace (fst out) =
    [EvInsert (mk_row 1 (VStr "Ann") (VFloat F64.lit_90) 1000); EvCommit;
     EvPrint "Email sent to ann@example.org for $6333186975989760p-46"] /\
  snd (get_order_by_id (VInt 1) (fst out)) =
    Ok (Some (mk_row 1 (VStr "Ann") (VFloat F64.lit_90) 1000)) /\
  snd (get_order_by_id (VInt 2) (fst out)) = Ok None.
Proof. repeat split; reflexivity. Qed.

(** Exceptions leave the method: a missing key, a string where a number
    is needed, an int too large for a float, a total too large for an
    SQLite INTEGER, a database without the table. *)
Example exceptions_propagate :
  snd (Demo.order_for_ann VNone Demo.items_no_price VNone Demo.w0) =
    Raise (KeyError "price") /\
  snd (Demo.order_for_ann VNone Demo.items_str_price VNone Demo.w0) =
    Raise TypeError /\
  snd (Demo.order_for_ann (VStr "premium") Demo.items_huge VNone Demo.w0) =
    Raise OverflowError /\
  snd (Demo.order_for_ann VNone Demo.items_huge VNone Demo.w0) =
    Raise OverflowError /\
  snd (Demo.order_for_ann VNone Demo.items_100 VNone Demo.w_no_table) =
    Raise OperationalError /\
  snd (calculate_shipping (VStr "heavy") Demo.w0) = Raise TypeError.
Proof. repeat split; vm_compute; reflexivity. Qed.

(** A total that is NaN is kept by the table as NULL and read back as
    None; a string repeated 2**63 times raises, one repeated -2**63 times
    is empty; an int of 4301 digits cannot be printed or formatted. *)
Example nan_total_and_limits :
  let out := Demo.order_for_ann VNone Demo.items_inf_zero VNone Demo.w0 in
  order_total VNone Demo.items_inf_zero VNone = Ok (VFloat S754_nan) /\
  orders (fst out) = Some [mk_row 1 (VStr "Ann") VNone 1000] /\
  snd (get_order_by_id (VInt 1) (fst out)) =
    Ok (Some (mk_row 1 (VStr "Ann") VNone 1000)) /\
  py_mul (VStr "ab") (VInt (2 ^ 63)) = Raise OverflowError /\
  py_mul (VStr "ab") (VInt (- 2 ^ 63)) = Ok (VStr EmptyString) /\
  snd (send_email "ann@example.org" (VInt (10 ^ 4300)) Demo.w0) = Raise ValueError /\
  snd (format_order "Ann" (VInt (10 ^ 4300)) Demo.w0) = Raise ValueError.
Proof. repeat split; vm_compute; reflexivity. Qed.

(** A weight that is NaN is not greater than 50; an infinite one is. *)
Example shipping_of_special_floats :
  snd (calculate_shipping (VFloat S754_nan) Demo.w0) = Ok (VFloat F64.lit_9_99) /\
  snd (calculate_shipping (VFloat (S754_infinity false)) Demo.w0) =
    Ok (VFloat F64.lit_25_99) /\
  snd (calculate_shipping (VBool true) Demo.w0) = Ok (VFloat F64.lit_9_99).
Proof. repeat split; reflexivity. Qed.

(** ** The properties on concrete calls *)

(** C1 on [[{'price': 40, 'quantity': 2}, {'price': 20, 'quantity': 1}]]. *)
Lemma C1_discount_examples_witness :
  sum_items Demo.items_100 = Ok (VInt 100) /\
  py_eq_int (VInt 100) 100 = true /\
  order_total (VStr "premium") Demo.items_100 VNone = Ok (VFloat F64.lit_90) /\
  order_total (VStr "regular") Demo.items_100 (VStr "SAVE10") = Ok (VFloat F64.lit_85_5) /\
  order_total (VStr "wholesale") Demo.items_100 (VStr "SAVE20") = Ok (VFloat F64.lit_64).
Proof.
  split; [reflexivity|]. split; [reflexivity|].
  apply (C1_discount_examples Demo.items_100 (VInt 100)); reflexivity.
Defined.

(** A 'premium' order of 100 for Ann, on a service with an empty table. *)
Lemma C2_steps_in_order_witness :
  process_order (VStr "premium") "Ann" "ann@example.org" Demo.items_100 VNone Demo.w0 =
    completed "Ann" "ann@example.org" (VFloat F64.lit_90) [] Demo.w0 /\
  performs_steps (VStr "premium") "Ann" "ann@example.org" Demo.items_100 VNone Demo.w0
    (completed "Ann" "ann@example.org" (VFloat F64.lit_90) [] Demo.w0).
Proof.
  split; [reflexivity|].
  apply (C2_steps_in_order (VStr "premium") "Ann" "ann@example.org"
           Demo.items_100 VNone Demo.w0).
  reflexivity.
Defined.

(** The same call on an item without a price: the first step raises, and
    none of the later ones happens. *)
Lemma C2_counterexample :
  process_order (VStr "premium") "Ann" "ann@example.org" Demo.items_no_price VNone Demo.w0 =
    (Demo.w0, Raise (KeyError "price")) /\
  ~ performs_steps (VStr "premium") "Ann" "ann@example.org" Demo.items_no_price VNone
      Demo.w0
      (process_order (VStr "premium") "Ann" "ann@example.org"
         Demo.items_no_price VNone Demo.w0).
Proof.
  split; [reflexivity|].
  intros (lines & s & t1 & t & rows & Hl & _).
  inversion Hl as [|it l its ls Hit _]; subst.
  vm_compute in Hit. discriminate.
Qed.

(** C3 on the weight 50.5. *)
Lemma C3_calculate_shipping_witness :
  as_num (VFloat (S754_finite false 7107243161944064 (-47))) =
    Some (NFloat (S754_finite false 7107243161944064 (-47))) /\
  num_valid (NFloat (S754_finite false 7107243161944064 (-47))) /\
  num_gt (NFloat (S754_finite false 7107243161944064 (-47))) 50 /\
  calculate_shipping (VFloat (S754_finite false 7107243161944064 (-47))) Demo.w0 =
    (Demo.w0, Ok (VFloat F64.lit_25_99)).
Proof.
  split; [reflexivity|]. split; [reflexivity|]. split; [simpl; lia|].
  apply (proj1 (proj2 (proj2 (C3_calculate_shipping Demo.w0))
                  (VFloat (S754_finite false 7107243161944064 (-47)))
                  (NFloat (S754_finite false 7107243161944064 (-47)))
                  eq_refl eq_refl)).
  simpl; lia.
Defined.

(** C5 on [[{'quantity': 1}]]. *)
Lemma C5_malformed_item_raises_witness :
  Exists malformed_item Demo.items_no_price /\
  exists ex,
    process_order (VStr "regular") "Ann" "ann@example.org" Demo.items_no_price
      (VStr "SAVE10") Demo.w0 = (Demo.w0, Raise ex).
Proof.
  split.
  - left. left. reflexivity.
  - apply C5_malformed_item_raises. left. left. reflexivity.
Defined.

(** [[{'price': float('inf'), 'quantity': 0}]]: both values are [>= 0],
    and the total is NaN, which is not. *)
Lemma C6_counterexample :
  Forall nonneg_item Demo.items_inf_zero /\
  order_total VNone Demo.items_inf_zero VNone = Ok (VFloat S754_nan) /\
  py_nonneg (VFloat S754_nan) = false.
Proof.
  split; [|split; reflexivity].
  repeat constructor.
  exists (VFloat (S754_infinity false)), (VInt 0).
  repeat split; reflexivity.
Qed.

Lemma C6_total_nonneg_witness :
  Forall nonneg_item_defined Demo.items_100_float /\
  nonneg_or_overflow (order_total (VStr "wholesale") Demo.items_100_float (VStr "SAVE20")).
Proof.
  assert (H : Forall nonneg_item_defined Demo.items_100_float).
  { repeat constructor.
    exists (VFloat (S754_finite false 7036874417766400 (-49))), (VInt 8).
    repeat split; reflexivity. }
  split; [exact H|].
  exact (proj1 (C6_total_nonneg (VStr "wholesale") Demo.items_100_float (VStr "SAVE20") H)).
Defined.

(** A call that raises has inserted no record. *)
Lemma C7_counterexample :
  process_order (VStr "premium") "Ann" "ann@example.org" Demo.items_no_price VNone Demo.w0 =
    (Demo.w0, Raise (KeyError "price")) /\
  ~ exists rows r,
      orders Demo.w0 = Some rows /\
      orders (fst (process_order (VStr "premium") "Ann" "ann@example.org"
                     Demo.items_no_price VNone Demo.w0)) = Some (rows ++ [r]).
Proof.
  split; [reflexivity|].
  intros (rows & r & Hrows & Hafter).
  vm_compute in Hrows, Hafter.
  injection Hrows as <-. discriminate.
Qed.

(** C9 on the order type 'gold' and the code 'SAVE5', for two items of
    40 x 2 and 20 x 1: the total is the int 100, and the call on a service
    with an empty table stores, prints and returns 100. *)
Lemma C9_unrecognized_no_reduction_witness :
  VStr "gold" <> VStr "premium" /\
  VStr "gold" <> VStr "regular" /\
  VStr "gold" <> VStr "wholesale" /\
  (VStr "SAVE5" <> VStr "SAVE10" /\ VStr "SAVE5" <> VStr "SAVE20") /\
  lines_of Demo.items_100 [(VInt 40, VInt 2); (VInt 20, VInt 1)] /\
  raw_sum [(VInt 40, VInt 2); (VInt 20, VInt 1)] = Ok (VInt 100) /\
  order_total (VStr "gold") Demo.items_100 (VStr "SAVE5") = Ok (VInt 100) /\
  process_order (VStr "gold") "Ann" "ann@example.org" Demo.items_100 (VStr "SAVE5")
      Demo.w0 =
    completed "Ann" "ann@example.org" (VInt 100) [] Demo.w0.
Proof.
  assert (H1 : VStr "gold" <> VStr "premium") by discriminate.
  assert (H2 : VStr "gold" <> VStr "regular") by discriminate.
  assert (H3 : VStr "gold" <> VStr "wholesale") by discriminate.
  assert (H4 : VStr "SAVE5" <> VStr "SAVE10" /\ VStr "SAVE5" <> VStr "SAVE20")
    by (split; discriminate).
  assert (Hl : lines_of Demo.items_100 [(VInt 40, VInt 2); (VInt 20, VInt 1)])
    by (repeat constructor).
  repeat (split; [assumption|]).
  split; [reflexivity|].
  pose proof (C9_unrecognized_no_reduction (VStr "gold") Demo.items_100 (VStr "SAVE5")
                H1 H2 H3 (or_intror H4)) as (_ & Hraw & _ & Hrun).
  split.
  - exact (Hraw _ Hl).
  - apply (Hrun "Ann" "ann@example.org" Demo.w0 [] (VInt 100)); reflexivity.
Defined.

(** C10 on the int 5. *)
Lemma C10_is_premium_customer_total_witness :
  (forall s, VInt 5 <> VStr s) /\
  is_premium_customer (VInt 5) Demo.w0 = (Demo.w0, Ok false).
Proof.
  assert (H : forall s, VInt 5 <> VStr s) by discriminate.
  split; [exact H|].
  exact (C10_is_premium_customer_total (VInt 5) Demo.w0 H).
Defined.

(** ** The further properties on concrete calls *)

(** X1 on [[{'price': 40, 'quantity': 2}, {'price': None, 'quantity': 1}, {}]]:
    the price [None] raises [TypeError], and the empty dictionary after
    it is never looked at. *)
Lemma first_failing_item_decides_witness :
  sum_items [mk_item (VInt 40) (VInt 2)] = Ok (VInt 80) /\
  add_item (VInt 80) (mk_item VNone (VInt 1)) = Raise TypeError /\
  process_order (VStr "premium") "Ann" "ann@example.org" Samples.items_none_price
    VNone Demo.w0 = (Demo.w0, Raise TypeError).
Proof.
  split; [reflexivity|]. split; [reflexivity|].
  apply (first_failing_item_decides (VStr "premium") "Ann" "ann@example.org"
           [mk_item (VInt 40) (VInt 2)] (mk_item VNone (VInt 1)) [∅] VNone Demo.w0
           (VInt 80) TypeError); reflexivity.
Defined.

Lemma pricing_failure_causes_witness :
  order_total VNone Demo.items_no_price VNone = Raise (KeyError "price") /\
  ((KeyError "price" = KeyError "price" /\
    Exists (fun it => it !! "price" = None) Demo.items_no_price) \/
   (KeyError "price" = KeyError "quantity" /\
    Exists (fun it => it !! "quantity" = None) Demo.items_no_price) \/
   (KeyError "price" = TypeError /\ Exists non_numeric_item Demo.items_no_price) \/
   KeyError "price" = OverflowError).
Proof.
  split; [reflexivity|].
  apply (pricing_failure_causes VNone Demo.items_no_price VNone). reflexivity.
Defined.

Lemma returns_only_on_numeric_items_witness :
  process_order (VStr "premium") "Ann" "ann@example.org" Demo.items_100 VNone Demo.w0 =
    completed "Ann" "ann@example.org" (VFloat F64.lit_90) [] Demo.w0 /\
  Forall numeric_item Demo.items_100 /\
  exists t, order_total (VStr "premium") Demo.items_100 VNone = Ok t /\ int_or_float t.
Proof.
  split; [reflexivity|].
  eapply (returns_only_on_numeric_items (VStr "premium") "Ann" "ann@example.org"
            Demo.items_100 VNone Demo.w0).
  reflexivity.
Defined.

Lemma other_keys_are_ignored_witness :
  Forall2 same_order_fields Samples.items_100_sku Demo.items_100 /\
  process_order (VStr "regular") "Ann" "ann@example.org" Samples.items_100_sku
    VNone Demo.w0 =
  process_order (VStr "regular") "Ann" "ann@example.org" Demo.items_100 VNone Demo.w0.
Proof.
  assert (H : Forall2 same_order_fields Samples.items_100_sku Demo.items_100).
  { repeat constructor; reflexivity. }
  split; [exact H|].
  exact (other_keys_are_ignored (VStr "regular") "Ann" "ann@example.org"
           Samples.items_100_sku Demo.items_100 VNone Demo.w0 H).
Defined.

Lemma items_100_are_ints : Forall int_item Demo.items_100.
Proof.
  repeat constructor.
  - exists 40, 2. split; reflexivity.
  - exists 20, 1. split; reflexivity.
Defined.

Lemma int_items_exact_total_witness :
  Forall int_item Demo.items_100 /\
  type_factor (VStr "gold") = None /\
  code_factor VNone = None /\
  order_total (VStr "gold") Demo.items_100 VNone = Ok (VInt 100).
Proof.
  split; [exact items_100_are_ints|]. split; [reflexivity|]. split; [reflexivity|].
  exact (int_items_exact_total (VStr "gold") Demo.items_100 VNone
           items_100_are_ints eq_refl eq_refl).
Defined.

Lemma int_items_order_irrelevant_witness :
  Forall int_item Demo.items_100 /\
  Demo.items_100 ≡ₚ Samples.items_100_swapped /\
  order_total (VStr "premium") Demo.items_100 (VStr "SAVE20") =
  order_total (VStr "premium") Samples.items_100_swapped (VStr "SAVE20").
Proof.
  assert (Hp : Demo.items_100 ≡ₚ Samples.items_100_swapped) by apply perm_swap.
  split; [exact items_100_are_ints|]. split; [exact Hp|].
  exact (int_items_order_irrelevant (VStr "premium") Demo.items_100
           Samples.items_100_swapped (VStr "SAVE20") items_100_are_ints Hp).
Defined.

Lemma empty_order_is_accepted_witness :
  orders Demo.w0 = Some [] /\
  order_total (VStr "premium") [] VNone = Ok (VFloat (S754_zero false)) /\
  process_order (VStr "premium") "Ann" "ann@example.org" [] VNone Demo.w0 =
    completed "Ann" "ann@example.org" (VFloat (S754_zero false)) [] Demo.w0.
Proof.
  split; [reflexivity|].
  exact (empty_order_is_accepted (VStr "premium") "Ann" "ann@example.org" VNone
           Demo.w0 [] eq_refl).
Defined.

Lemma discounted_total_is_float_witness :
  (is_Some (type_factor VNone) \/ is_Some (code_factor (VStr "SAVE10"))) /\
  order_total VNone Demo.items_100 (VStr "SAVE10") = Ok (VFloat F64.lit_90) /\
  exists f, VFloat F64.lit_90 = VFloat f.
Proof.
  assert (H : is_Some (type_factor VNone) \/ is_Some (code_factor (VStr "SAVE10"))).
  { right. exists F64.lit_0_9. reflexivity. }
  split; [exact H|]. split; [reflexivity|].
  exact (proj1 (discounted_total_is_float VNone "Ann" "ann@example.org" Demo.items_100
                  (VStr "SAVE10") (VFloat F64.lit_90) H eq_refl)).
Defined.

Lemma type_and_code_share_factors_witness :
  type_factor (VStr "gold") = None /\
  code_factor VNone = None /\
  order_total (VStr "premium") Demo.items_100_float VNone =
    order_total (VStr "gold") Demo.items_100_float (VStr "SAVE10") /\
  order_total (VStr "wholesale") Demo.items_100_float VNone =
    order_total (VStr "gold") Demo.items_100_float (VStr "SAVE20").
Proof.
  split; [reflexivity|]. split; [reflexivity|].
  exact (type_and_code_share_factors (VStr "gold") Demo.items_100_float VNone
           eq_refl eq_refl).
Defined.

Lemma get_order_by_id_finds_a_match_witness :
  orders Samples.w_two = Some Samples.two_rows /\
  sqlite_bindable (VInt 2) = true /\
  snd (get_order_by_id (VInt 2) Samples.w_two) =
    Ok (Some (mk_row 2 (VStr "Bob") (VFloat F64.lit_90) 20)) /\
  orders (fst (get_order_by_id (VInt 2) Samples.w_two)) = Some Samples.two_rows.
Proof.
  split; [reflexivity|]. split; [reflexivity|]. split; [reflexivity|].
  exact (proj1 (get_order_by_id_finds_a_match (VInt 2) Samples.w_two Samples.two_rows
                  eq_refl eq_refl)).
Defined.


Lemma new_order_keeps_other_lookups_witness :
  orders Samples.w_two = Some Samples.two_rows /\
  id_matches (VInt 1) (fresh_id Samples.two_rows) = false /\
  snd (get_order_by_id (VInt 1)
         (fst (process_order (VStr "premium") "Cy" "cy@example.org" Demo.items_100
                 VNone Samples.w_two))) =
  snd (get_order_by_id (VInt 1) Samples.w_two).
Proof.
  split; [reflexivity|]. split; [reflexivity|].
  exact (new_order_keeps_other_lookups (VStr "premium") "Cy" "cy@example.org"
           Demo.items_100 VNone (VInt 1) Samples.w_two Samples.two_rows
           eq_refl eq_refl).
Defined.

Lemma oversized_int_is_not_bound_witness :
  order_total VNone Samples.items_2_63 VNone = Ok (VInt (2 ^ 63)) /\
  ~ (- 2 ^ 63 <= 2 ^ 63 < 2 ^ 63) /\
  orders Demo.w0 = Some [] /\
  process_order VNone "Ann" "ann@example.org" Samples.items_2_63 VNone Demo.w0 =
    (set_cursor [] (tick Demo.w0), Raise OverflowError) /\
  get_order_by_id (VInt (2 ^ 63)) Demo.w0 = (set_cursor [] Demo.w0, Raise OverflowError).
Proof.
  assert (Hz : ~ (- 2 ^ 63 <= 2 ^ 63 < 2 ^ 63)) by lia.
  split; [reflexivity|]. split; [exact Hz|]. split; [reflexivity|].
  exact (oversized_int_is_not_bound VNone "Ann" "ann@example.org" Samples.items_2_63
           VNone (2 ^ 63) Demo.w0 [] eq_refl Hz eq_refl).
Defined.

Lemma table_only_grows_witness :
  orders Samples.w_two = Some Samples.two_rows /\
  exists new,
    orders (after_calls Samples.w_two Samples.some_calls) =
      Some (Samples.two_rows ++ new) /\
    inserted (after_calls Samples.w_two Samples.some_calls) =
      inserted Samples.w_two ++ new /\
    (length new <=
     length (filter (fun c => is_process_order c = true) Samples.some_calls))%nat.
Proof.
  split; [reflexivity|].
  exact (table_only_grows Samples.w_two Samples.some_calls Samples.two_rows eq_refl).
Defined.

Lemma rowid_is_fresh (rs : list order_row) :
  @fresh_id Samples.rowid_runtime rs ∉ row_id <$> rs.
Proof.
  assert (Hmax : forall i, i ∈ row_id <$> rs -> i <= foldr Z.max 0 (row_id <$> rs)).
  { induction rs as [|r rs IH]; intros i Hi.
    - inversion Hi.
    - rewrite fmap_cons in *. cbn [foldr].
      apply elem_of_cons in Hi as [->|Hi]; [lia|]. specialize (IH i Hi). lia. }
  intros Hin. apply Hmax in Hin. unfold fresh_id, Samples.rowid_runtime in Hin. lia.
Qed.

Lemma ids_stay_distinct_witness :
  (forall rs, @fresh_id Samples.rowid_runtime rs ∉ row_id <$> rs) /\
  orders Samples.w_two = Some Samples.two_rows /\
  NoDup (row_id <$> Samples.two_rows) /\
  exists rows',
    orders (after_calls (rt := Samples.rowid_runtime) Samples.w_two Samples.some_calls) =
      Some rows' /\
    NoDup (row_id <$> rows').
Proof.
  assert (Hnd : NoDup (row_id <$> Samples.two_rows)).
  { change (NoDup [1; 2]). apply NoDup_cons. split; [|apply NoDup_singleton].
    intros H. apply list_elem_of_singleton in H. discriminate. }
  split; [exact rowid_is_fresh|]. split; [reflexivity|]. split; [exact Hnd|].
  exact (ids_stay_distinct (rt := Samples.rowid_runtime) Samples.w_two
           Samples.some_calls Samples.two_rows rowid_is_fresh eq_refl Hnd).
Defined.

Lemma premium_names_are_prefix_closed_witness :
  is_premium_customer (VStr "VIP-042") Demo.w0 = (Demo.w0, Ok true) /\
  (3 <= String.length "VIP-042")%nat /\
  is_premium_customer (VStr ("VIP-042" +:+ " (gold)")) Demo.w0 = (Demo.w0, Ok true).
Proof.
  split; [reflexivity|].
  destruct (premium_names_are_prefix_closed "VIP-042" Demo.w0 eq_refl) as [Hlen Happ].
  split; [exact Hlen | exact (Happ " (gold)")].
Defined.

Lemma shipping_is_monotone_witness :
  10 <= 60 /\
  exists c1 c2,
    calculate_shipping (VInt 10) Demo.w0 = (Demo.w0, Ok (VFloat c1)) /\
    calculate_shipping (VInt 60) Demo.w0 = (Demo.w0, Ok (VFloat c2)) /\
    F64.leb c1 c2 = true /\
    (c1 = F64.lit_9_99 \/ c1 = F64.lit_25_99) /\
    (c2 = F64.lit_9_99 \/ c2 = F64.lit_25_99).
Proof.
  assert (H : 10 <= 60) by lia.
  split; [exact H|].
  exact (shipping_is_monotone 10 60 Demo.w0 H).
Defined.
